(** * tools/classify.py: the Open Images classification script

    A shallow embedding of [tools/classify.py]: the string handling of
    [LoadLabelMaps], the image normalisation of [PreprocessImage], the
    top-N selection and the reporting loop of [main], together with the
    properties the script's specification states about them.

    Conventions.
    - A Python 2 [str] is a [string] of 8-bit characters.
    - A file is its raw contents; the file system is a finite map from
      paths to contents, so that [os.path.exists] and opening a file
      agree.
    - A finite float is the rational number it denotes ([Q]); NaN and
      infinities are outside the model.  The float operations the script
      itself performs ([1.0/127.5], [tf.mul], [tf.sub]) round to nearest,
      ties to even, in their binary format.
    - What the script calls but does not define is a parameter: a
      [Library] record for the JPEG codec, the resize and the network, and
      an [Argsort] class for [numpy.ndarray.argsort], of which only the
      contract is used.
    - [tf.logging.fatal] is the [fatal] method of a Python [logging]
      logger: it writes a record and returns. *)

From Stdlib Require Import Ascii QArith Qround Qabs Qpower Sorted Lqa.
From stdpp Require Import base gmap strings list sorting pretty.

(** * Part I: the embedding *)

(** ** Python string helpers *)

Module PyStr.

Definition newline : ascii := "010"%char.
Definition dquote : ascii := "034"%char.
Definition comma : ascii := ","%char.

(** [str.rstrip()] without argument strips the bytes that Python 2
    calls whitespace: space, TAB, LF, VT, FF, CR. *)
Definition is_space (c : ascii) : bool :=
  let n := nat_of_ascii c in
  (n =? 32)%nat || ((9 <=? n)%nat && (n <=? 13)%nat).

(** The character set the dict loop strips from both ends of a word:
    space, double quote and LF. *)
Definition in_dict_strip_set (c : ascii) : bool :=
  Ascii.eqb c " "%char || Ascii.eqb c dquote || Ascii.eqb c newline.

(** [s.rstrip(chars)], the set given as a predicate. *)
Fixpoint rstrip_by (p : ascii → bool) (s : string) : string :=
  match s with
  | EmptyString => EmptyString
  | String c s' =>
      match rstrip_by p s' with
      | EmptyString => if p c then EmptyString else String c EmptyString
      | r => String c r
      end
  end.

(** [s.lstrip(chars)]. *)
Fixpoint lstrip_by (p : ascii → bool) (s : string) : string :=
  match s with
  | EmptyString => EmptyString
  | String c s' => if p c then lstrip_by p s' else s
  end.

(** [s.strip(chars)]. *)
Definition strip_by (p : ascii → bool) (s : string) : string :=
  rstrip_by p (lstrip_by p s).

(** [line.rstrip()] *)
Definition rstrip : string → string := rstrip_by is_space.

(** [s.split(',', 1)]: at most one split, at the first comma. *)
Fixpoint split_comma_1 (s : string) : list string :=
  match s with
  | EmptyString => [EmptyString]
  | String c s' =>
      if Ascii.eqb c comma then [EmptyString; s']
      else match split_comma_1 s' with
           | w :: ws => String c w :: ws
           | [] => [String c EmptyString]
           end
  end.

(** [c in s] for a character. *)
Fixpoint contains (c : ascii) (s : string) : bool :=
  match s with
  | EmptyString => false
  | String d s' => Ascii.eqb d c || contains c s'
  end.

(** Whether every character of [s] is in the set [p]. *)
Fixpoint all_chars (p : ascii → bool) (s : string) : bool :=
  match s with
  | EmptyString => true
  | String c s' => p c && all_chars p s'
  end.

(** [f.readlines()]: the contents cut after every LF; a last line
    without LF is kept when it is not empty. *)
Fixpoint readlines (s : string) : list string :=
  match s with
  | EmptyString => []
  | String c s' =>
      if Ascii.eqb c newline then String c EmptyString :: readlines s'
      else match readlines s' with
           | l :: ls => String c l :: ls
           | [] => [String c EmptyString]
           end
  end.

(** Joins lines written without their terminator, for building files. *)
Definition unlines (ls : list string) : string :=
  foldr (λ l acc, l +:+ String newline acc) EmptyString ls.

End PyStr.

(** ** Rational numbers: decidable order *)

#[global] Instance Qle_decision (x y : Q) : Decision (x <= y)%Q :=
  Z_le_dec (Qnum x * Zpos (Qden y)) (Qnum y * Zpos (Qden x)).

#[global] Instance Qlt_decision (x y : Q) : Decision (x < y)%Q :=
  Z_lt_dec (Qnum x * Zpos (Qden y)) (Qnum y * Zpos (Qden x)).

(** Round to the nearest integer, ties to even. *)
Definition round_half_even (q : Q) : Z :=
  let fl := Qfloor q in
  match Qcompare (q - inject_Z fl) (1 # 2) with
  | Lt => fl
  | Gt => (fl + 1)%Z
  | Eq => if Z.even fl then fl else (fl + 1)%Z
  end.

(** ** Number formatting *)

Module PyFormat.

Definition digit (d : Z) : string := pretty (d `mod` 10)%Z.

(** [{:.2f}]: sign, integer part, a point and exactly two decimals,
    correctly rounded. *)
Definition format_2f (q : Q) : string :=
  let c := round_half_even (Qabs q * 100) in
  (if decide (q < 0)%Q then "-" else "")
    +:+ pretty (c `div` 100)%Z +:+ "." +:+ digit (c `div` 10) +:+ digit c.

(** ['{}: {} - {} (score = {:.2f})'.format(idx, mid, display_name, score)] *)
Definition format_line (idx : nat) (mid display_name : string) (score : Q) : string :=
  pretty idx +:+ ": " +:+ mid +:+ " - " +:+ display_name
    +:+ " (score = " +:+ format_2f score +:+ ")".

End PyFormat.

(** ** Binary floating point *)

Module Binary.

Definition pow2 (e : Z) : Q := (2 ^ e)%Q.

(** The exponent of the leading bit of a positive rational. *)
Definition ilog2 (q : Q) : Z :=
  let k := (Z.log2 (Qnum q) - Z.log2 (Zpos (Qden q)))%Z in
  if decide (pow2 k <= q)%Q then k else (k - 1)%Z.

(** A format: the number of significand bits and the exponent of the
    smallest positive number. *)
Record format := { prec : Z; emin : Z }.

Definition binary32 : format := {| prec := 24; emin := -149 |}.
Definition binary64 : format := {| prec := 53; emin := -1074 |}.

(** The exponent of the unit in the last place at [q]. *)
Definition ulp_exp (f : format) (q : Q) : Z :=
  Z.max (emin f) (ilog2 (Qabs q) - (prec f - 1)).

(** Round to nearest, ties to even; no overflow, the values at hand
    being small. *)
Definition rnd (f : format) (q : Q) : Q :=
  let e := ulp_exp f q in
  Qred (inject_Z (round_half_even (q / pow2 e)) * pow2 e).

Definition fl32 : Q → Q := rnd binary32.
Definition fl64 : Q → Q := rnd binary64.

End Binary.

(** ** Runs of the script: events, ways to stop, and the monad *)

(** What a run leaves behind that the specification talks about. *)
Inductive event :=
  | EvLogFatal (msg : string)   (* a [tf.logging.fatal] record *)
  | EvSessRun                   (* [sess.run(predictions)] was called *)
  | EvPrint (line : string).    (* a line written by [print] *)

Inductive exn :=
  | NotFoundError          (* opening a file that does not exist *)
  | DataLossError          (* [saver.restore] on bytes that are no checkpoint *)
  | InvalidArgumentError   (* an op failing inside [sess.run], e.g. [decode_jpeg] *)
  | IndexError.            (* list index out of range *)

Inductive halt :=
  | SysExit (code : Z)     (* [sys.exit(code)] *)
  | Uncaught (e : exn).    (* an exception nobody catches *)

Inductive outcome (A : Type) :=
  | Returns (a : A)
  | Halts (h : halt).
Arguments Returns {A} a.
Arguments Halts {A} h.

(** A run: the events in order, and how it ended. *)
Definition Run (A : Type) : Type := list event * outcome A.

#[global] Instance Run_ret : MRet Run := λ A a, ([], Returns a).

#[global] Instance Run_bind : MBind Run := λ A B f m,
  match m.2 with
  | Returns a => let r := f a in (m.1 ++ r.1, r.2)
  | Halts h => (m.1, Halts h)
  end.

#[global] Instance Run_throw : MThrow halt Run := λ A h, ([], Halts h).

Definition emit (e : event) : Run () := ([e], Returns ()).

Definition events {A} (r : Run A) : list event := r.1.
Definition result {A} (r : Run A) : outcome A := r.2.

Definition print_of (e : event) : option string :=
  match e with EvPrint l => Some l | _ => None end.

Definition fatal_of (e : event) : option string :=
  match e with EvLogFatal m => Some m | _ => None end.

(** The lines of standard output, in order. *)
Definition printed (evs : list event) : list string := omap print_of evs.

(** The fatal records of the log, in order. *)
Definition logged (evs : list event) : list string := omap fatal_of evs.

Definition ran_inference (evs : list event) : Prop := EvSessRun ∈ evs.

Definition halted {A} (r : Run A) : Prop := ∃ h, result r = Halts h.

(** [for x in xs: body(x)] *)
Fixpoint for_each {A} (xs : list A) (body : A → Run ()) : Run () :=
  match xs with
  | [] => mret ()
  | x :: xs' => body x;; for_each xs' body
  end.

(** [l[i]] for a non-negative index. *)
Definition index {A} (l : list A) (i : nat) : Run A :=
  match l !! i with
  | Some x => mret x
  | None => mthrow (Uncaught IndexError)
  end.

(** ** The libraries the script calls *)

(** TensorFlow, as far as the script observes it. *)
Record Library := {
  (** [tf.cast(tf.image.decode_jpeg(data, channels=3), tf.float32)], the
      pixels flattened; [None] when the bytes are no JPEG *)
  decode_jpeg : string → option (list Q);
  (** [tf.image.crop_and_resize] of the whole image to a square of the
      given side *)
  crop_and_resize : list Q → Z → list Q;
  (** [inception_v3] with the variables restored from the checkpoint
      bytes, followed by the sigmoid and [np.squeeze]: from the input
      tensor to the score vector; [None] when [saver.restore] raises *)
  restore_inception_v3 : string → Z → option (list Q → list Q)
}.

(** [numpy.ndarray.argsort]: a permutation of the indices along which the
    values do not decrease.  The default sort kind is not stable, so the
    order among equal values is left open. *)
Class Argsort := {
  argsort : list Q → list nat;
  argsort_perm : ∀ v, argsort v ≡ₚ seq 0 (length v);
  argsort_sorted : ∀ v i j a b x y,
    (i < j)%nat → argsort v !! i = Some a → argsort v !! j = Some b →
    v !! a = Some x → v !! b = Some y → (x <= y)%Q
}.

(** Python slicing [l[k:]]. *)
Definition slice_from {A} (l : list A) (k : Z) : list A :=
  let len := Z.of_nat (length l) in
  let start := if decide (k < 0)%Z then Z.max 0 (k + len) else Z.min k len in
  drop (Z.to_nat start) l.

(** [scores.argsort()[-n:][::-1]] *)
Definition top_k `{Argsort} (scores : list Q) (n : Z) : list nat :=
  reverse (slice_from (argsort scores) (- n)).

(** Python's [x / y] on floats: a division of doubles. *)
Definition py_div (x y : Q) : Q := Binary.fl64 (x / y).

(** [tf.mul(img, c)] and [tf.sub(img, c)] on a float32 tensor and a
    Python float: the scalar becomes a float32 constant, the operation
    is element-wise and rounds its result. *)
Definition tf_mul (img : list Q) (c : Q) : list Q :=
  (λ v, Binary.fl32 (v * Binary.fl32 c)) <$> img.

Definition tf_sub (img : list Q) (c : Q) : list Q :=
  (λ v, Binary.fl32 (v - Binary.fl32 c)) <$> img.

(** The command line. [image_path] is the single element of the
    positional argument. *)
Record Flags := {
  checkpoint : string;
  labelmap : string;
  dict : string;
  image_size : Z;
  num_classes : Z;
  n : Z;
  image_path : string
}.

(** ** The script *)

Section Script.

Context (lib : Library) (fs : gmap string string) (FLAGS : Flags).
Context {sorter : Argsort}.

(** *** Calls into the environment *)

Definition os_path_exists (path : string) : Run bool :=
  mret (bool_decide (is_Some (fs !! path))).

(** [tf.logging.fatal] writes the record and returns.  Only what
    follows the call in the script can stop the run. *)
Definition logging_fatal (msg : string) : Run () := emit (EvLogFatal msg).

Definition sys_exit (code : Z) : Run () := mthrow (SysExit code).

(** [tf.gfile.FastGFile(path).read()] *)
Definition GFile_read (path : string) : Run string :=
  match fs !! path with
  | Some data => mret data
  | None => mthrow (Uncaught NotFoundError)
  end.

(** [tf.gfile.GFile(path).readlines()] *)
Definition GFile_readlines (path : string) : Run (list string) :=
  data ← GFile_read path;
  mret (PyStr.readlines data).

(** [saver.restore(sess, path)] on the graph built for [classes]. *)
Definition saver_restore (path : string) (classes : Z) : Run (list Q → list Q) :=
  data ← GFile_read path;
  match restore_inception_v3 lib data classes with
  | Some net => mret net
  | None => mthrow (Uncaught DataLossError)
  end.

(** [np.squeeze(sess.run(predictions))].  The input tensor is a graph
    node: a failing op in it ([None]) only raises here. *)
Definition sess_run (net : list Q → list Q) (input : option (list Q)) : Run (list Q) :=
  emit EvSessRun;;
  match input with
  | Some img => mret (net img)
  | None => mthrow (Uncaught InvalidArgumentError)
  end.

(** *** [PreprocessImage] *)

Definition PreprocessImage (image_path : string) : Run (option (list Q)) :=
  found ← os_path_exists image_path;
  (if negb found
   then logging_fatal ("Input image does not exist " +:+ image_path)
   else mret ());;
  img_data ← GFile_read image_path;
  let img := decode_jpeg lib img_data in
  let img := (λ i, crop_and_resize lib i (image_size FLAGS)) <$> img in
  let img := (λ i, tf_mul i (py_div 1.0 127.5)) <$> img in
  mret ((λ i, tf_sub i 1.0) <$> img).

(** *** [LoadLabelMaps] *)

Definition label_map_message (labelmap_path : string) (len : nat) (classes : Z) : string :=
  "Label map loaded from " +:+ labelmap_path +:+ " contains " +:+ pretty len
    +:+ " lines while the number of classes is " +:+ pretty classes.

(** One turn of the dict loop: [words[1]] is evaluated before
    [words[0]], and only it can be out of range. *)
Definition dict_step (label_dict : gmap string string) (line : string)
  : Run (gmap string string) :=
  let words := PyStr.strip_by PyStr.in_dict_strip_set <$> PyStr.split_comma_1 line in
  value ← index words 1;
  key ← index words 0;
  mret (<[key := value]> label_dict).

Fixpoint dict_loop (label_dict : gmap string string) (lines : list string)
  : Run (gmap string string) :=
  match lines with
  | [] => mret label_dict
  | line :: lines' =>
      label_dict' ← dict_step label_dict line;
      dict_loop label_dict' lines'
  end.

Definition LoadLabelMaps (classes : Z) (labelmap_path dict_path : string)
  : Run (list string * gmap string string) :=
  lines ← GFile_readlines labelmap_path;
  let labelmap := PyStr.rstrip <$> lines in
  (if decide (Z.of_nat (length labelmap) ≠ classes)
   then logging_fatal (label_map_message labelmap_path (length labelmap) classes);;
        sys_exit 1
   else mret ());;
  dict_lines ← GFile_readlines dict_path;
  label_dict ← dict_loop ∅ dict_lines;
  mret (labelmap, label_dict).

(** *** [main] *)

Definition checkpoint_message : string :=
  "Checkpoint " +:+ checkpoint FLAGS
    +:+ " does not exist. Have you download it? See tools/download_data.sh".

(** The body of the reporting loop. *)
Definition report_one (labelmap : list string) (label_dict : gmap string string)
    (predictions_eval : list Q) (idx : nat) : Run () :=
  mid ← index labelmap idx;
  let display_name := default "unknown" (label_dict !! mid) in
  score ← index predictions_eval idx;
  emit (EvPrint (PyFormat.format_line idx mid display_name score)).

(** The reporting stage, from the comment [# Print top(n) results] on. *)
Definition report (predictions_eval : list Q) : Run () :=
  '(labelmap, label_dict) ←
    LoadLabelMaps (num_classes FLAGS) (labelmap FLAGS) (dict FLAGS);
  let top := top_k predictions_eval (n FLAGS) in
  for_each top (report_one labelmap label_dict predictions_eval).

(** Everything up to [np.squeeze(sess.run(predictions))]. *)
Definition infer : Run (list Q) :=
  found ← os_path_exists (checkpoint FLAGS);
  (if negb found then logging_fatal checkpoint_message else mret ());;
  input_image ← PreprocessImage (image_path FLAGS);
  net ← saver_restore (checkpoint FLAGS) (num_classes FLAGS);
  sess_run net input_image.

Definition main : Run () :=
  predictions_eval ← infer;
  report predictions_eval.

End Script.

(** ** Vocabulary of the properties *)

(** A dict.csv line that [split(',', 1)] cuts in two. *)
Definition has_comma (line : string) : Prop :=
  PyStr.contains PyStr.comma line = true.

#[global] Instance has_comma_dec line : Decision (has_comma line) := _.

(** Where the slice [[-n:]] starts in a list of [len] elements. *)
Definition slice_start (len : nat) (n : Z) : nat :=
  Z.to_nat (if decide (- n < 0)%Z then Z.max 0 (- n + Z.of_nat len)
            else Z.min (- n) (Z.of_nat len)).

(** What [tf.sub(tf.mul(img, 1.0/127.5), 1.0)] does to one value. *)
Definition normalize (v : Q) : Q :=
  Binary.fl32 (Binary.fl32 (v * Binary.fl32 (py_div 1.0 127.5)) - Binary.fl32 1.0).

(** The tensor [PreprocessImage] builds from decoded pixels. *)
Definition preprocessed (lib : Library) (FLAGS : Flags) (pixels : list Q) : list Q :=
  normalize <$> crop_and_resize lib pixels (image_size FLAGS).

(** The line the loop body prints for [idx]; [None] when [idx] is out of
    range of the label map or of the score vector. *)
Definition line_of (labelmap : list string) (label_dict : gmap string string)
    (scores : list Q) (idx : nat) : option string :=
  mid ← labelmap !! idx;
  score ← scores !! idx;
  Some (PyFormat.format_line idx mid (default "unknown" (label_dict !! mid)) score).

(** The indices the loop gets through before an index is out of range. *)
Fixpoint reported (labelmap : list string) (label_dict : gmap string string)
    (scores : list Q) (idxs : list nat) : list nat :=
  match idxs with
  | [] => []
  | idx :: rest =>
      if line_of labelmap label_dict scores idx is Some _
      then idx :: reported labelmap label_dict scores rest
      else []
  end.

Definition is_digit (c : ascii) : Prop := (48 ≤ nat_of_ascii c ≤ 57)%nat.

Definition digit_value (c : ascii) : Z := Z.of_nat (nat_of_ascii c - 48).

(** [value] is [score] written with two decimals: the sign, an integer
    part, a point and two digits, which together denote the multiple of
    1/100 nearest to the magnitude of the score. *)
Definition two_decimals (score : Q) (value : string) : Prop :=
  ∃ (int : Z) (d1 d2 : ascii),
    value = (if decide (score < 0)%Q then "-" else "")
              +:+ pretty int +:+ "." +:+ String d1 (String d2 "") ∧
    (0 ≤ int)%Z ∧ is_digit d1 ∧ is_digit d2 ∧
    (Qabs (Qabs score * 100
           - inject_Z (100 * int + 10 * digit_value d1 + digit_value d2))
     <= 1 # 2)%Q.

(** The six ways [infer] ends. *)
Inductive infer_case (lib : Library) (fs : gmap string string) (FLAGS : Flags)
  : Run (list Q) → Prop :=
  | infer_no_checkpoint_no_image :
      fs !! checkpoint FLAGS = None → fs !! image_path FLAGS = None →
      infer_case lib fs FLAGS
        ([EvLogFatal (checkpoint_message FLAGS);
          EvLogFatal ("Input image does not exist " +:+ image_path FLAGS)],
         Halts (Uncaught NotFoundError))
  | infer_no_checkpoint jpeg :
      fs !! checkpoint FLAGS = None → fs !! image_path FLAGS = Some jpeg →
      infer_case lib fs FLAGS
        ([EvLogFatal (checkpoint_message FLAGS)], Halts (Uncaught NotFoundError))
  | infer_no_image ckpt :
      fs !! checkpoint FLAGS = Some ckpt → fs !! image_path FLAGS = None →
      infer_case lib fs FLAGS
        ([EvLogFatal ("Input image does not exist " +:+ image_path FLAGS)],
         Halts (Uncaught NotFoundError))
  | infer_bad_checkpoint ckpt jpeg :
      fs !! checkpoint FLAGS = Some ckpt → fs !! image_path FLAGS = Some jpeg →
      restore_inception_v3 lib ckpt (num_classes FLAGS) = None →
      infer_case lib fs FLAGS ([], Halts (Uncaught DataLossError))
  | infer_bad_image ckpt jpeg net :
      fs !! checkpoint FLAGS = Some ckpt → fs !! image_path FLAGS = Some jpeg →
      restore_inception_v3 lib ckpt (num_classes FLAGS) = Some net →
      decode_jpeg lib jpeg = None →
      infer_case lib fs FLAGS ([EvSessRun], Halts (Uncaught InvalidArgumentError))
  | infer_scores ckpt jpeg net pixels :
      fs !! checkpoint FLAGS = Some ckpt → fs !! image_path FLAGS = Some jpeg →
      restore_inception_v3 lib ckpt (num_classes FLAGS) = Some net →
      decode_jpeg lib jpeg = Some pixels →
      infer_case lib fs FLAGS
        ([EvSessRun], Returns (net (preprocessed lib FLAGS pixels))).

(** ** A reference [argsort]

    A merge sort of the indices by score: one function that meets the
    [Argsort] contract, used to run the script on concrete inputs. *)

Definition score_le (v : list Q) (a b : nat) : Prop :=
  (default 0 (v !! a) <= default 0 (v !! b))%Q.

#[global] Instance score_le_dec v a b : Decision (score_le v a b) :=
  Qle_decision _ _.

Definition merge_argsort (v : list Q) : list nat :=
  merge_sort (score_le v) (seq 0 (length v)).

(** ** Concrete inputs *)

Module Demo.

(** A library whose codec accepts the bytes [jpeg], whose resize is the
    identity, and whose network, restored from the bytes [ckpt], answers
    the fixed score vector [scores]. *)
Definition lib (scores : list Q) : Library :=
  {| decode_jpeg := λ data,
       if String.eqb data "jpeg" then Some [0; 255; 51]%Q else None;
     crop_and_resize := λ img _, img;
     restore_inception_v3 := λ data _,
       if String.eqb data "ckpt" then Some (λ _, scores) else None |}.

Definition flags (classes top : Z) : Flags :=
  {| checkpoint := "data/2016_08/model.ckpt";
     labelmap := "data/2016_08/labelmap.txt";
     dict := "dict.csv";
     image_size := 299;
     num_classes := classes;
     n := top;
     image_path := "/tmp/cat.jpg" |}.

Definition quoted (s : string) : string :=
  String PyStr.dquote s +:+ String PyStr.dquote EmptyString.

Definition labelmap_txt : string :=
  PyStr.unlines ["/m/01yrx"; "/m/0jbk"; "/m/04rky"].

Definition dict_csv : string :=
  PyStr.unlines [quoted "/m/01yrx" +:+ "," +:+ quoted "cat";
                 quoted "/m/0jbk" +:+ "," +:+ quoted "animal"].

Definition fs_full : gmap string string :=
  <["data/2016_08/model.ckpt" := "ckpt"]>
  (<["/tmp/cat.jpg" := "jpeg"]>
  (<["data/2016_08/labelmap.txt" := labelmap_txt]>
  (<["dict.csv" := dict_csv]> ∅))).

(** Three binary32 scores. *)
Definition scores3 : list Q := [0.90625; 0.9375; 0.921875]%Q.

(** The same files with a dict.csv whose only line has no comma. *)
Definition fs_bad_dict : gmap string string :=
  <["dict.csv" := PyStr.unlines ["/m/01yrx cat"]]> fs_full.

(** The label files under other names, next to nothing else. *)
Definition fs_moved : gmap string string :=
  <["labels" := labelmap_txt]> (<["names" := dict_csv]> ∅).

Definition flags_moved : Flags :=
  {| checkpoint := "gone.ckpt";
     labelmap := "labels";
     dict := "names";
     image_size := 224;
     num_classes := 3;
     n := 2;
     image_path := "gone.jpg" |}.

End Demo.

(** ** Vocabulary of the further properties *)



Fixpoint last_char (s : string) : option ascii :=
  match s with
  | EmptyString => None
  | String c EmptyString => Some c
  | String _ s' => last_char s'
  end.

(** A string that neither starts nor ends with a character of [p]. *)
Definition stripped (p : ascii → bool) (s : string) : Prop :=
  (∀ c t, s = String c t → p c = false) ∧
  (∀ t c, s = t +:+ String c EmptyString → p c = false).

(** The words the dict loop makes of a line. *)
Definition dict_words (line : string) : list string :=
  PyStr.strip_by PyStr.in_dict_strip_set <$> PyStr.split_comma_1 line.

(** The flags with another top-N count. *)
Definition with_n (FLAGS : Flags) (k : Z) : Flags :=
  {| checkpoint := checkpoint FLAGS;
     labelmap := labelmap FLAGS;
     dict := dict FLAGS;
     image_size := image_size FLAGS;
     num_classes := num_classes FLAGS;
     n := k;
     image_path := image_path FLAGS |}.




(** A dict.csv line that does not define [key]. *)
Definition other_key (key : string) (line : string) : Prop :=
  ∀ value, dict_words line ≠ [key; value].

(** More concrete inputs. *)
Module Demo2.

(** A label map of two lines: blanks around the first entry, no LF after
    the second. *)
Definition labelmap_spaced : string :=
  " a b  " +:+ String PyStr.newline "/m/0jbk".

Definition fs_spaced : gmap string string :=
  <["data/2016_08/labelmap.txt" := labelmap_spaced]> Demo.fs_full.

End Demo2.

Module Demo3.

(** A dict.csv that names [/m/01yrx] twice, with commas and quotes inside
    the second name. *)
Definition dict_twice : string :=
  PyStr.unlines [Demo.quoted "/m/01yrx" +:+ "," +:+ Demo.quoted "cat";
                 " /m/01yrx ," +:+ Demo.quoted ("house cat, " +:+ Demo.quoted "Felis" +:+ " catus")].

Definition fs_twice : gmap string string :=
  <["dict.csv" := dict_twice]> Demo.fs_full.

End Demo3.

Module Demo4.


End Demo4.

Module Demo5.

(** The demo files next to a file the script never opens. *)
Definition fs_more : gmap string string :=
  <["README.md" := "Open Images"]> Demo.fs_full.

End Demo5.

(** A decimal digit, as a test. *)
Definition digitb (c : ascii) : bool :=
  (48 <=? nat_of_ascii c)%nat && (nat_of_ascii c <=? 57)%nat.

(** [c] hundredths written with two decimals. *)
Definition hundredths (c : Z) : string :=
  pretty (c `div` 100)%Z +:+ "." +:+ PyFormat.digit (c `div` 10) +:+ PyFormat.digit c.

(** A second reference [argsort]: the same merge sort, started from the
    indices in descending order, so that equal scores come out the other
    way round. *)
Definition merge_argsort_rev (v : list Q) : list nat :=
  merge_sort (score_le v) (reverse (seq 0 (length v))).

(** * Part II: properties *)

(** ** The reference [argsort] meets the contract *)

#[global] Instance score_le_trans v : Transitive (score_le v).
Proof. intros a b c. unfold score_le. apply Qle_trans. Qed.

#[global] Instance score_le_total v : Total (score_le v).
Proof.
  intros a b. unfold score_le.
  destruct (Qlt_le_dec (default 0%Q (v !! b)) (default 0%Q (v !! a))) as [Hlt|Hle].
  - right. by apply Qlt_le_weak.
  - by left.
Qed.

Lemma StronglySorted_lookup_lt {A} (R : relation A) (l : list A) i j a b :
  StronglySorted R l → (i < j)%nat → l !! i = Some a → l !! j = Some b → R a b.
Proof.
  intros Hs. revert i j. induction Hs as [|x l Hs IH Hall]; intros i j Hij Hi Hj.
  - by rewrite lookup_nil in Hi.
  - destruct j as [|j]; [lia|]. destruct i as [|i]; simpl in *.
    + injection Hi as <-. rewrite Forall_forall in Hall.
      apply Hall. by eapply list_elem_of_lookup_2.
    + eapply IH; [|done..]. lia.
Qed.

Lemma merge_argsort_perm v : merge_argsort v ≡ₚ seq 0 (length v).
Proof. apply merge_sort_Permutation. Qed.

Lemma merge_argsort_sorted v i j a b x y :
  (i < j)%nat → merge_argsort v !! i = Some a → merge_argsort v !! j = Some b →
  v !! a = Some x → v !! b = Some y → (x <= y)%Q.
Proof.
  intros Hij Hi Hj Ha Hb.
  pose proof (StronglySorted_merge_sort (score_le v) (seq 0 (length v))) as Hs.
  pose proof (StronglySorted_lookup_lt _ _ _ _ _ _ Hs Hij Hi Hj) as Hab.
  unfold score_le in Hab. by rewrite Ha, Hb in Hab.
Qed.

#[global] Instance merge_Argsort : Argsort :=
  {| argsort := merge_argsort;
     argsort_perm := merge_argsort_perm;
     argsort_sorted := merge_argsort_sorted |}.

(** ** Concrete runs *)

Example readlines_keeps_terminators :
  PyStr.readlines (PyStr.unlines ["/m/01 "; ""] +:+ "x")
  = [PyStr.unlines ["/m/01 "]; PyStr.unlines [""]; "x"].
Proof. reflexivity. Qed.

Example rstrip_lines :
  PyStr.rstrip <$> PyStr.readlines (PyStr.unlines ["/m/01 "; ""; " x y  "])
  = ["/m/01"; ""; " x y"].
Proof. reflexivity. Qed.

Example split_at_first_comma :
  PyStr.split_comma_1 "a,b,c" = ["a"; "b,c"] ∧
  PyStr.split_comma_1 "abc" = ["abc"] ∧
  PyStr.split_comma_1 "" = [""].
Proof. done. Qed.

Example strip_quotes :
  PyStr.strip_by PyStr.in_dict_strip_set (Demo.quoted " ca t " +:+ PyStr.unlines [""])
  = "ca t".
Proof. reflexivity. Qed.

Example format_2f_rounds_ties_to_even :
  PyFormat.format_2f 0.9375 = "0.94" ∧ PyFormat.format_2f 0.125 = "0.12" ∧
  PyFormat.format_2f 0.375 = "0.38" ∧ PyFormat.format_2f (-0.001) = "-0.00" ∧
  PyFormat.format_2f 1234.5 = "1234.50".
Proof. vm_compute. done. Qed.

Example binary32_scale :
  py_div 1.0 127.5 = (282578800148737 # 36028797018963968)%Q ∧
  Binary.fl32 (py_div 1.0 127.5) = (8421505 # 1073741824)%Q.
Proof. vm_compute. done. Qed.

Example demo_top_two :
  main (Demo.lib Demo.scores3) Demo.fs_full (Demo.flags 3 2)
  = ([EvSessRun;
      EvPrint "1: /m/0jbk - animal (score = 0.94)";
      EvPrint "2: /m/04rky - unknown (score = 0.92)"],
     Returns ()).
Proof. vm_compute. reflexivity. Qed.

Example demo_top_zero :
  main (Demo.lib Demo.scores3) Demo.fs_full (Demo.flags 3 0)
  = ([EvSessRun;
      EvPrint "1: /m/0jbk - animal (score = 0.94)";
      EvPrint "2: /m/04rky - unknown (score = 0.92)";
      EvPrint "0: /m/01yrx - cat (score = 0.91)"],
     Returns ()).
Proof. vm_compute. reflexivity. Qed.

Example demo_top_minus_one :
  printed (events (main (Demo.lib Demo.scores3) Demo.fs_full (Demo.flags 3 (-1))))
  = ["1: /m/0jbk - animal (score = 0.94)";
     "2: /m/04rky - unknown (score = 0.92)"].
Proof. vm_compute. reflexivity. Qed.

Example demo_no_checkpoint :
  main (Demo.lib Demo.scores3) (delete "data/2016_08/model.ckpt" Demo.fs_full)
    (Demo.flags 3 2)
  = ([EvLogFatal "Checkpoint data/2016_08/model.ckpt does not exist. Have you download it? See tools/download_data.sh"],
     Halts (Uncaught NotFoundError)).
Proof. vm_compute. reflexivity. Qed.

Example demo_no_image :
  main (Demo.lib Demo.scores3) (delete "/tmp/cat.jpg" Demo.fs_full) (Demo.flags 3 2)
  = ([EvLogFatal "Input image does not exist /tmp/cat.jpg"],
     Halts (Uncaught NotFoundError)).
Proof. vm_compute. reflexivity. Qed.

Example demo_no_labelmap :
  main (Demo.lib Demo.scores3) (delete "data/2016_08/labelmap.txt" Demo.fs_full)
    (Demo.flags 3 2)
  = ([EvSessRun], Halts (Uncaught NotFoundError)).
Proof. vm_compute. reflexivity. Qed.

Example demo_bad_dict :
  main (Demo.lib Demo.scores3) Demo.fs_bad_dict (Demo.flags 3 2)
  = ([EvSessRun], Halts (Uncaught IndexError)).
Proof. vm_compute. reflexivity. Qed.

(** ** The run monad *)

(** Unfolds the monad operations, down to pairs of events and outcomes. *)
Ltac run_step :=
  cbv beta iota zeta delta
    [mbind Run_bind mret Run_ret mthrow Run_throw emit
     sys_exit logging_fatal index os_path_exists];
  simpl.

Lemma bind_returns {A B} (m : Run A) (f : A → Run B) evs a :
  m = (evs, Returns a) → m ≫= f = (evs ++ (f a).1, (f a).2).
Proof. by intros ->. Qed.

Lemma bind_halts {A B} (m : Run A) (f : A → Run B) evs h :
  m = (evs, Halts h) → m ≫= f = (evs, Halts h).
Proof. by intros ->. Qed.

Lemma printed_fmap_EvPrint lines : printed (EvPrint <$> lines) = lines.
Proof. induction lines as [|l lines IH]; simpl; [done|]. by f_equal. Qed.

(** ** String helpers *)

Lemma split_comma_1_with s :
  PyStr.contains PyStr.comma s = true →
  ∃ w0 w1, PyStr.split_comma_1 s = [w0; w1].
Proof.
  induction s as [|c s IH]; simpl; [done|].
  destruct (Ascii.eqb c PyStr.comma); simpl; [eauto|].
  intros Hc. destruct (IH Hc) as (w0 & w1 & ->). eauto.
Qed.

Lemma split_comma_1_without s :
  PyStr.contains PyStr.comma s = false → PyStr.split_comma_1 s = [s].
Proof.
  induction s as [|c s IH]; simpl; [done|].
  destruct (Ascii.eqb c PyStr.comma); simpl; [done|].
  intros Hc. by rewrite (IH Hc).
Qed.

(** [rstrip_by] cuts off a suffix made of stripped characters only. *)
Lemma rstrip_by_suffix p s :
  ∃ ws, s = PyStr.rstrip_by p s +:+ ws ∧ PyStr.all_chars p ws = true.
Proof.
  induction s as [|c s (ws & Hs & Hws)]; simpl; [by exists ""|].
  destruct (PyStr.rstrip_by p s) as [|c' r] eqn:Hr.
  - change ("" +:+ ws) with ws in Hs. subst ws. destruct (p c) eqn:Hc.
    + exists (String c s). split; [done|]. simpl. by rewrite Hc, Hws.
    + by exists s.
  - exists ws. split; [|done].
    change (String c s = String c (String c' r +:+ ws)). by rewrite <-Hs.
Qed.

(** What [rstrip_by] leaves does not end in a stripped character. *)
Lemma rstrip_by_last p s t c :
  PyStr.rstrip_by p s = t +:+ String c "" → p c = false.
Proof.
  revert t. induction s as [|c0 s IH]; intros t; simpl.
  - by destruct t.
  - destruct (PyStr.rstrip_by p s) as [|c' r] eqn:Hr.
    + destruct (p c0) eqn:Hc0; [by destruct t|].
      destruct t as [|c1 t]; simpl; [by intros [= <-]|].
      intros [= _ Ht]. by destruct t.
    + destruct t as [|c1 t]; simpl; [done|].
      intros [= _ Ht]. by eapply IH.
Qed.

(** ** The dict loop *)

Lemma dict_step_comma d line :
  has_comma line → ∃ key value, dict_step d line = ([], Returns (<[key := value]> d)).
Proof.
  intros Hc. destruct (split_comma_1_with _ Hc) as (w0 & w1 & Hs).
  unfold dict_step. rewrite Hs. simpl. eauto.
Qed.

Lemma dict_step_no_comma d line :
  ¬ has_comma line → dict_step d line = ([], Halts (Uncaught IndexError)).
Proof.
  intros Hc. unfold dict_step.
  rewrite split_comma_1_without; [done|].
  unfold has_comma in Hc. by destruct (PyStr.contains _ _).
Qed.

Lemma dict_loop_all_comma lines : ∀ d,
  Forall has_comma lines → ∃ d', dict_loop d lines = ([], Returns d').
Proof.
  induction lines as [|line lines IH]; intros d Hall; simpl.
  - by exists d.
  - apply Forall_cons in Hall as [Hc Hall].
    destruct (dict_step_comma d line Hc) as (key & value & Hstep).
    destruct (IH (<[key := value]> d) Hall) as (d' & Hloop).
    exists d'. rewrite (bind_returns _ _ _ _ Hstep). by rewrite Hloop.
Qed.

Lemma dict_loop_some_no_comma lines : ∀ d,
  Exists (λ line, ¬ has_comma line) lines →
  dict_loop d lines = ([], Halts (Uncaught IndexError)).
Proof.
  induction lines as [|line lines IH]; intros d Hex; simpl.
  - by apply Exists_nil in Hex.
  - destruct (decide (has_comma line)) as [Hc|Hc].
    + apply Exists_cons in Hex as [?|Hex]; [done|].
      destruct (dict_step_comma d line Hc) as (key & value & Hstep).
      rewrite (bind_returns _ _ _ _ Hstep). by rewrite IH.
    + by rewrite (bind_halts _ _ _ _ (dict_step_no_comma d line Hc)).
Qed.

(** ** [LoadLabelMaps], case by case *)

Section LoadLabelMaps_cases.

Context (fs : gmap string string) (classes : Z) (labelmap_path dict_path : string).

Let load := LoadLabelMaps fs classes labelmap_path dict_path.

Lemma LoadLabelMaps_no_labelmap :
  fs !! labelmap_path = None → load = ([], Halts (Uncaught NotFoundError)).
Proof.
  intros Hl. unfold load, LoadLabelMaps, GFile_readlines, GFile_read.
  by rewrite Hl.
Qed.

Lemma LoadLabelMaps_mismatch data :
  fs !! labelmap_path = Some data →
  Z.of_nat (length (PyStr.readlines data)) ≠ classes →
  load = ([EvLogFatal (label_map_message labelmap_path
                         (length (PyStr.readlines data)) classes)],
          Halts (SysExit 1)).
Proof.
  intros Hl Hne. unfold load, LoadLabelMaps, GFile_readlines, GFile_read.
  rewrite Hl. run_step. rewrite length_fmap.
  by destruct (decide _).
Qed.

Lemma LoadLabelMaps_no_dict data :
  fs !! labelmap_path = Some data →
  Z.of_nat (length (PyStr.readlines data)) = classes →
  fs !! dict_path = None →
  load = ([], Halts (Uncaught NotFoundError)).
Proof.
  intros Hl Heq Hd. unfold load, LoadLabelMaps, GFile_readlines, GFile_read.
  rewrite Hl, Hd. run_step. rewrite length_fmap.
  by destruct (decide _).
Qed.

Lemma LoadLabelMaps_bad_dict data ddata :
  fs !! labelmap_path = Some data →
  Z.of_nat (length (PyStr.readlines data)) = classes →
  fs !! dict_path = Some ddata →
  Exists (λ line, ¬ has_comma line) (PyStr.readlines ddata) →
  load = ([], Halts (Uncaught IndexError)).
Proof.
  intros Hl Heq Hd Hex. unfold load, LoadLabelMaps, GFile_readlines, GFile_read.
  rewrite Hl, Hd. run_step. rewrite length_fmap.
  destruct (decide _); [done|].
  by rewrite (dict_loop_some_no_comma _ ∅ Hex).
Qed.

Lemma LoadLabelMaps_good data ddata :
  fs !! labelmap_path = Some data →
  Z.of_nat (length (PyStr.readlines data)) = classes →
  fs !! dict_path = Some ddata →
  Forall has_comma (PyStr.readlines ddata) →
  ∃ label_dict,
    dict_loop ∅ (PyStr.readlines ddata) = ([], Returns label_dict) ∧
    load = ([], Returns (PyStr.rstrip <$> PyStr.readlines data, label_dict)).
Proof.
  intros Hl Heq Hd Hall. unfold load, LoadLabelMaps, GFile_readlines, GFile_read.
  rewrite Hl, Hd. run_step. rewrite length_fmap.
  destruct (decide _); [done|].
  destruct (dict_loop_all_comma _ ∅ Hall) as (d & Hloop).
  exists d. split; [done|]. by rewrite Hloop.
Qed.

(** A normal return pins down both files. *)
Lemma LoadLabelMaps_returns_inv evs labelmap label_dict :
  load = (evs, Returns (labelmap, label_dict)) →
  ∃ data ddata,
    fs !! labelmap_path = Some data ∧
    Z.of_nat (length (PyStr.readlines data)) = classes ∧
    fs !! dict_path = Some ddata ∧
    Forall has_comma (PyStr.readlines ddata) ∧
    dict_loop ∅ (PyStr.readlines ddata) = ([], Returns label_dict) ∧
    labelmap = PyStr.rstrip <$> PyStr.readlines data ∧
    evs = [].
Proof.
  intros Hload.
  destruct (fs !! labelmap_path) as [data|] eqn:Hl;
    [|by rewrite LoadLabelMaps_no_labelmap in Hload].
  destruct (decide (Z.of_nat (length (PyStr.readlines data)) = classes)) as [Heq|Hne];
    [|by rewrite (LoadLabelMaps_mismatch data) in Hload].
  destruct (fs !! dict_path) as [ddata|] eqn:Hd;
    [|by rewrite (LoadLabelMaps_no_dict data) in Hload].
  destruct (decide (Forall has_comma (PyStr.readlines ddata))) as [Hall|Hex].
  - destruct (LoadLabelMaps_good data ddata Hl Heq Hd Hall) as (d & Hloop & Hgood).
    rewrite Hgood in Hload. simplify_eq. by exists data, ddata.
  - apply not_Forall_Exists in Hex; [|apply _].
    by rewrite (LoadLabelMaps_bad_dict data ddata) in Hload.
Qed.

End LoadLabelMaps_cases.

Lemma LoadLabelMaps_cases fs classes labelmap_path dict_path :
  let load := LoadLabelMaps fs classes labelmap_path dict_path in
  load = ([], Halts (Uncaught NotFoundError)) ∨
  (∃ msg, load = ([EvLogFatal msg], Halts (SysExit 1))) ∨
  load = ([], Halts (Uncaught IndexError)) ∨
  (∃ v, load = ([], Returns v)).
Proof.
  intros load. subst load.
  destruct (fs !! labelmap_path) as [data|] eqn:Hl;
    [|left; by apply LoadLabelMaps_no_labelmap].
  destruct (decide (Z.of_nat (length (PyStr.readlines data)) = classes)) as [Heq|Hne];
    [|right; left; eexists; by apply LoadLabelMaps_mismatch].
  destruct (fs !! dict_path) as [ddata|] eqn:Hd;
    [|left; by eapply LoadLabelMaps_no_dict].
  destruct (decide (Forall has_comma (PyStr.readlines ddata))) as [Hall|Hex].
  - destruct (LoadLabelMaps_good fs classes labelmap_path dict_path
                data ddata Hl Heq Hd Hall) as (d & _ & ->).
    do 3 right. by eexists.
  - apply not_Forall_Exists in Hex; [|apply _].
    right; right; left. by eapply LoadLabelMaps_bad_dict.
Qed.

(** ** [argsort] and the top-N slice *)

Section TopK.

Context {sorter : Argsort}.

Implicit Types (scores : list Q) (n : Z).

Lemma argsort_length scores : length (argsort scores) = length scores.
Proof. by rewrite (Permutation_length (argsort_perm scores)), length_seq. Qed.

Lemma argsort_NoDup scores : NoDup (argsort scores).
Proof. rewrite (argsort_perm scores). apply NoDup_seq. Qed.

Lemma elem_of_argsort scores a : a ∈ argsort scores ↔ (a < length scores)%nat.
Proof. rewrite (argsort_perm scores), elem_of_seq. lia. Qed.

Lemma top_k_unfold scores n :
  top_k scores n =
  reverse (drop (slice_start (length scores) n) (argsort scores)).
Proof. unfold top_k, slice_from, slice_start. by rewrite argsort_length. Qed.

Lemma slice_start_le len n : (slice_start len n ≤ len)%nat.
Proof. unfold slice_start. destruct (decide _); lia. Qed.

Lemma slice_start_pos len n :
  (1 ≤ n)%Z → slice_start len n = (len - Z.to_nat n)%nat.
Proof. intros Hn. unfold slice_start. destruct (decide _); lia. Qed.

Lemma slice_start_zero len : slice_start len 0 = 0%nat.
Proof. unfold slice_start. destruct (decide _); lia. Qed.

Lemma top_k_length scores n :
  length (top_k scores n) = (length scores - slice_start (length scores) n)%nat.
Proof. by rewrite top_k_unfold, length_reverse, length_drop, argsort_length. Qed.

(** Position [i] of the result is position [length - 1 - i] of the
    ascending order. *)
Lemma top_k_lookup scores n i a :
  top_k scores n !! i = Some a ↔
  argsort scores !! (length scores - S i)%nat = Some a ∧
  (i < length scores - slice_start (length scores) n)%nat.
Proof.
  pose proof (slice_start_le (length scores) n) as Hle.
  rewrite top_k_unfold, reverse_lookup_Some, length_drop, lookup_drop, argsort_length.
  split; intros [Ha Hi]; (split; [|done]); revert Ha;
    by replace (slice_start (length scores) n
                + (length scores - slice_start (length scores) n - S i))%nat
      with (length scores - S i)%nat by lia.
Qed.

Lemma elem_of_top_k scores n a :
  a ∈ top_k scores n ↔
  ∃ p, argsort scores !! p = Some a ∧ (slice_start (length scores) n ≤ p)%nat.
Proof.
  rewrite list_elem_of_lookup. setoid_rewrite top_k_lookup. split.
  - intros (i & Ha & Hi). exists (length scores - S i)%nat. split; [done|lia].
  - intros (p & Ha & Hp).
    assert (p < length scores)%nat as Hlt.
    { rewrite <-argsort_length. by eapply lookup_lt_Some. }
    exists (length scores - S p)%nat. split; [|lia].
    by replace (length scores - S (length scores - S p))%nat with p by lia.
Qed.

Lemma top_k_valid scores n a : a ∈ top_k scores n → (a < length scores)%nat.
Proof.
  rewrite elem_of_top_k. intros (p & Ha & _).
  apply elem_of_argsort. by eapply list_elem_of_lookup_2.
Qed.

Lemma top_k_NoDup scores n : NoDup (top_k scores n).
Proof.
  rewrite top_k_unfold, reverse_Permutation.
  pose proof (argsort_NoDup scores) as Hnd.
  rewrite <-(take_drop (slice_start (length scores) n) (argsort scores)) in Hnd.
  by apply NoDup_app in Hnd as (_ & _ & Hnd).
Qed.

(** The printed order: scores do not increase along [top_k]. *)
Lemma top_k_descending scores n i j a b x y :
  (i < j)%nat → top_k scores n !! i = Some a → top_k scores n !! j = Some b →
  scores !! a = Some x → scores !! b = Some y → (y <= x)%Q.
Proof.
  rewrite !top_k_lookup. intros Hij [Ha Hi] [Hb Hj] Hx Hy.
  eapply (argsort_sorted scores (length scores - S j) (length scores - S i));
    [lia|done..].
Qed.



(** [[-0:]] is the whole list. *)
Lemma top_k_zero scores : top_k scores 0 = reverse (argsort scores).
Proof. by rewrite top_k_unfold, slice_start_zero. Qed.

Lemma top_k_zero_length scores : length (top_k scores 0) = length scores.
Proof. rewrite top_k_length, slice_start_zero. lia. Qed.

End TopK.

(** ** The stages of [main] *)

Section Stages.

Context (lib : Library) (fs : gmap string string) (FLAGS : Flags).
Context {sorter : Argsort}.

Lemma PreprocessImage_found path jpeg :
  fs !! path = Some jpeg →
  PreprocessImage lib fs FLAGS path =
    ([], Returns (preprocessed lib FLAGS <$> decode_jpeg lib jpeg)).
Proof.
  intros Hp. unfold PreprocessImage, GFile_read. run_step. rewrite Hp. simpl.
  destruct (decode_jpeg lib jpeg) as [pixels|]; simpl; [|done].
  unfold preprocessed, tf_sub, tf_mul. rewrite <-list_fmap_compose.
  unfold normalize, compose. reflexivity.
Qed.

Lemma PreprocessImage_missing path :
  fs !! path = None →
  PreprocessImage lib fs FLAGS path =
    ([EvLogFatal ("Input image does not exist " +:+ path)],
     Halts (Uncaught NotFoundError)).
Proof.
  intros Hp. unfold PreprocessImage, GFile_read. run_step. by rewrite Hp.
Qed.

(** [infer] ends in one of six ways. *)
Lemma infer_cases : infer_case lib fs FLAGS (infer lib fs FLAGS).
Proof.
  unfold infer.
  destruct (fs !! checkpoint FLAGS) as [ckpt|] eqn:Hc;
    destruct (fs !! image_path FLAGS) as [jpeg|] eqn:Hi.
  - rewrite (PreprocessImage_found _ _ Hi).
    unfold saver_restore, sess_run, GFile_read. run_step. rewrite Hc. simpl.
    destruct (restore_inception_v3 lib ckpt (num_classes FLAGS)) as [net|] eqn:Hr;
      simpl; [|by eapply infer_bad_checkpoint].
    destruct (decode_jpeg lib jpeg) as [pixels|] eqn:Hd; simpl.
    + by eapply infer_scores.
    + by eapply infer_bad_image.
  - rewrite (PreprocessImage_missing _ Hi). run_step. rewrite Hc. simpl.
    by eapply infer_no_image.
  - rewrite (PreprocessImage_found _ _ Hi).
    unfold saver_restore, GFile_read. run_step. rewrite Hc. simpl.
    by eapply infer_no_checkpoint.
  - rewrite (PreprocessImage_missing _ Hi). run_step. rewrite Hc. simpl.
    by eapply infer_no_checkpoint_no_image.
Qed.

End Stages.

(** Splits on the way [infer] ends; [Hi] names the equation. *)
Ltac case_infer Hi :=
  match goal with
  | lib : Library, fs : gmap string string, FLAGS : Flags |- _ =>
      let r := fresh "r" in
      let Hcase := fresh "Hcase" in
      pose proof (infer_cases lib fs FLAGS) as Hcase;
      remember (infer lib fs FLAGS) as r eqn:Hi in Hcase;
      destruct Hcase as
        [Hckpt Himg|jpeg Hckpt Himg|ckpt Hckpt Himg|ckpt jpeg Hckpt Himg Hrest
        |ckpt jpeg net Hckpt Himg Hrest Hdec|ckpt jpeg net pixels Hckpt Himg Hrest Hdec];
      symmetry in Hi
  end.

(** ** The reporting loop *)

Section ReportLoop.

Context (labelmap : list string) (label_dict : gmap string string).
Context (scores : list Q).

Local Abbreviation line_at := (line_of labelmap label_dict scores).
Local Abbreviation got_through := (reported labelmap label_dict scores).

Lemma report_one_run idx :
  report_one labelmap label_dict scores idx =
  match line_at idx with
  | Some line => ([EvPrint line], Returns ())
  | None => ([], Halts (Uncaught IndexError))
  end.
Proof.
  unfold report_one, line_of. run_step.
  destruct (labelmap !! idx) as [mid|]; simpl; [|done].
  by destruct (scores !! idx).
Qed.

Lemma for_each_report_events idxs :
  events (for_each idxs (report_one labelmap label_dict scores)) =
  EvPrint <$> omap line_at (got_through idxs).
Proof.
  induction idxs as [|idx idxs IH]; simpl; [done|].
  unfold events in *. rewrite report_one_run.
  destruct (line_at idx) as [line|] eqn:Hline; run_step; [|done].
  rewrite Hline. simpl. by f_equal.
Qed.

Lemma for_each_report_result idxs :
  result (for_each idxs (report_one labelmap label_dict scores)) =
  if decide (got_through idxs = idxs) then Returns ()
  else Halts (Uncaught IndexError).
Proof.
  induction idxs as [|idx idxs IH]; simpl; [done|].
  unfold result in *. rewrite report_one_run.
  destruct (line_at idx) as [line|] eqn:Hline; run_step.
  - rewrite IH. repeat case_decide; congruence.
  - by case_decide.
Qed.

Lemma reported_prefix idxs : got_through idxs `prefix_of` idxs.
Proof.
  induction idxs as [|idx idxs IH]; simpl; [done|].
  destruct (line_at idx); [by apply prefix_cons|apply prefix_nil].
Qed.

Lemma reported_lines idxs :
  Forall (λ idx, is_Some (line_at idx)) (got_through idxs).
Proof.
  induction idxs as [|idx idxs IH]; simpl; [done|].
  destruct (line_at idx) eqn:Hline; [|done].
  constructor; [by rewrite Hline|done].
Qed.

Lemma reported_all idxs :
  Forall (λ idx, (idx < length labelmap)%nat ∧ (idx < length scores)%nat) idxs →
  got_through idxs = idxs.
Proof.
  induction 1 as [|idx idxs [Hl Hs] _ IH]; simpl; [done|].
  apply lookup_lt_is_Some in Hl as [mid Hl], Hs as [score Hs].
  unfold line_of at 1. rewrite Hl, Hs. simpl. by rewrite IH.
Qed.

Lemma line_of_Some idx line :
  line_at idx = Some line ↔
  ∃ mid score, labelmap !! idx = Some mid ∧ scores !! idx = Some score ∧
    line = PyFormat.format_line idx mid (default "unknown" (label_dict !! mid)) score.
Proof.
  unfold line_of. split.
  - destruct (labelmap !! idx) as [mid|]; simpl; [|done].
    destruct (scores !! idx) as [score|]; simpl; [|done].
    intros [= <-]. by exists mid, score.
  - intros (mid & score & -> & -> & ->). done.
Qed.

End ReportLoop.

(** ** [report] and [main] as a whole *)

Section Whole.

Context (lib : Library) (fs : gmap string string) (FLAGS : Flags).
Context {sorter : Argsort}.

Lemma report_halts scores evs h :
  LoadLabelMaps fs (num_classes FLAGS) (labelmap FLAGS) (dict FLAGS) = (evs, Halts h) →
  report fs FLAGS scores = (evs, Halts h).
Proof. intros Hload. unfold report. by rewrite Hload. Qed.

Lemma report_returns scores lm d :
  LoadLabelMaps fs (num_classes FLAGS) (labelmap FLAGS) (dict FLAGS)
    = ([], Returns (lm, d)) →
  report fs FLAGS scores =
  for_each (top_k scores (n FLAGS)) (report_one lm d scores).
Proof.
  intros Hload. unfold report. rewrite Hload. run_step. simpl.
  by destruct (for_each _ _).
Qed.

(** What [report] prints: nothing when [LoadLabelMaps] stops the run;
    otherwise one line per index of [top_k], in order, as far as the
    indices are in range. *)
Lemma report_printed scores :
  (printed (events (report fs FLAGS scores)) = [] ∧ halted (report fs FLAGS scores)) ∨
  ∃ lm d,
    LoadLabelMaps fs (num_classes FLAGS) (labelmap FLAGS) (dict FLAGS)
      = ([], Returns (lm, d)) ∧
    printed (events (report fs FLAGS scores)) =
      omap (line_of lm d scores) (reported lm d scores (top_k scores (n FLAGS))).
Proof.
  destruct (LoadLabelMaps_cases fs (num_classes FLAGS) (labelmap FLAGS) (dict FLAGS))
    as [H|[[msg H]|[H|[[lm d] H]]]]; cbv zeta in H.
  1-3: left; rewrite (report_halts _ _ _ H); split; [done|by eexists].
  right. exists lm, d. split; [done|].
  by rewrite (report_returns _ _ _ H), for_each_report_events,
    printed_fmap_EvPrint.
Qed.

End Whole.

(** ** [main] from its stages *)

Section MainRuns.

Context (lib : Library) (fs : gmap string string) (FLAGS : Flags).
Context {sorter : Argsort}.

Lemma main_infer_halts evs h :
  infer lib fs FLAGS = (evs, Halts h) → main lib fs FLAGS = (evs, Halts h).
Proof. intros Hi. unfold main. by rewrite Hi. Qed.

Lemma main_infer_returns evs scores :
  infer lib fs FLAGS = (evs, Returns scores) →
  main lib fs FLAGS =
    (evs ++ events (report fs FLAGS scores), result (report fs FLAGS scores)).
Proof. intros Hi. unfold main. by rewrite Hi. Qed.

(** [main] prints what [report] prints, if it gets that far. *)
Lemma main_printed :
  (printed (events (main lib fs FLAGS)) = [] ∧ halted (main lib fs FLAGS)) ∨
  ∃ scores,
    infer lib fs FLAGS = ([EvSessRun], Returns scores) ∧
    printed (events (main lib fs FLAGS)) = printed (events (report fs FLAGS scores)).
Proof.
  case_infer Hi.
  1-5: left; rewrite (main_infer_halts _ _ Hi); split; [done|by eexists].
  right. eexists. split; [done|]. by rewrite (main_infer_returns _ _ Hi).
Qed.

End MainRuns.

(** ** What is printed, line by line *)

Lemma omap_Forall2 {A B} (f : A → option B) (l : list A) :
  Forall (λ x, is_Some (f x)) l → Forall2 (λ x y, f x = Some y) l (omap f l).
Proof.
  induction 1 as [|x l [y Hy] _ IH]; simpl; [constructor|].
  rewrite Hy. by constructor.
Qed.

Lemma prefix_elem_of {A} (l1 l2 : list A) x : l1 `prefix_of` l2 → x ∈ l1 → x ∈ l2.
Proof. intros [k ->] Hin. apply elem_of_app. by left. Qed.

Lemma prefix_lookup {A} (l1 l2 : list A) i x :
  l1 `prefix_of` l2 → l1 !! i = Some x → l2 !! i = Some x.
Proof. intros [k ->] Hi. by apply lookup_app_l_Some. Qed.

Section Printed.

Context (lib : Library) (fs : gmap string string) (FLAGS : Flags).
Context {sorter : Argsort}.

(** The printed lines are, in order, the lines of the indices the loop
    got through, and these are a prefix of [top_k]. *)
Lemma report_lines scores :
  ∃ idxs lm d,
    idxs `prefix_of` top_k scores (n FLAGS) ∧
    Forall2 (λ idx line, line_of lm d scores idx = Some line)
      idxs (printed (events (report fs FLAGS scores))) ∧
    (idxs ≠ [] →
     LoadLabelMaps fs (num_classes FLAGS) (labelmap FLAGS) (dict FLAGS)
     = ([], Returns (lm, d))).
Proof.
  destruct (report_printed fs FLAGS scores) as [[Hnil _]|(lm & d & Hload & Hpr)].
  - exists [], [], ∅. rewrite Hnil. split_and!; [apply prefix_nil|constructor|done].
  - exists (reported lm d scores (top_k scores (n FLAGS))), lm, d.
    rewrite Hpr. split_and!; [apply reported_prefix| |done].
    apply omap_Forall2, reported_lines.
Qed.

Lemma report_printed_inv scores line :
  line ∈ printed (events (report fs FLAGS scores)) →
  ∃ lm d idx mid score,
    LoadLabelMaps fs (num_classes FLAGS) (labelmap FLAGS) (dict FLAGS)
      = ([], Returns (lm, d)) ∧
    idx ∈ top_k scores (n FLAGS) ∧
    lm !! idx = Some mid ∧ scores !! idx = Some score ∧
    line = PyFormat.format_line idx mid (default "unknown" (d !! mid)) score.
Proof.
  destruct (report_printed fs FLAGS scores) as [[Hnil _]|(lm & d & Hload & Hpr)].
  - rewrite Hnil. by intros ?%elem_of_nil.
  - rewrite Hpr, list_elem_of_omap. intros (idx & Hin & Hline).
    apply line_of_Some in Hline as (mid & score & Hmid & Hscore & ->).
    exists lm, d, idx, mid, score. split_and!; try done.
    eapply prefix_elem_of; [apply reported_prefix|done].
Qed.

Lemma main_printed_inv line :
  line ∈ printed (events (main lib fs FLAGS)) →
  ∃ scores lm d idx mid score,
    infer lib fs FLAGS = ([EvSessRun], Returns scores) ∧
    LoadLabelMaps fs (num_classes FLAGS) (labelmap FLAGS) (dict FLAGS)
      = ([], Returns (lm, d)) ∧
    idx ∈ top_k scores (n FLAGS) ∧
    lm !! idx = Some mid ∧ scores !! idx = Some score ∧
    line = PyFormat.format_line idx mid (default "unknown" (d !! mid)) score.
Proof.
  destruct (main_printed lib fs FLAGS) as [[Hnil _]|(scores & Hi & Hpr)].
  - rewrite Hnil. by intros ?%elem_of_nil.
  - rewrite Hpr. intros Hin.
    apply report_printed_inv in Hin as (lm & d & idx & mid & score & ?).
    by exists scores, lm, d, idx, mid, score.
Qed.

(** With a score per class, every index of [top_k] is printed. *)
Lemma report_prints_all scores lm d :
  LoadLabelMaps fs (num_classes FLAGS) (labelmap FLAGS) (dict FLAGS)
    = ([], Returns (lm, d)) →
  Z.of_nat (length scores) = num_classes FLAGS →
  reported lm d scores (top_k scores (n FLAGS)) = top_k scores (n FLAGS) ∧
  report fs FLAGS scores =
    (EvPrint <$> omap (line_of lm d scores) (top_k scores (n FLAGS)), Returns ()) ∧
  length (printed (events (report fs FLAGS scores)))
    = length (top_k scores (n FLAGS)).
Proof.
  intros Hload Hlen.
  assert (reported lm d scores (top_k scores (n FLAGS)) = top_k scores (n FLAGS))
    as Hall.
  { apply reported_all, Forall_forall. intros idx Hin%top_k_valid.
    apply LoadLabelMaps_returns_inv in Hload
      as (data & ddata & _ & Hcount & _ & _ & _ & -> & _).
    rewrite length_fmap. lia. }
  split; [done|]. rewrite (report_returns _ _ _ _ _ Hload).
  pose proof (for_each_report_events lm d scores (top_k scores (n FLAGS))) as Hev.
  pose proof (for_each_report_result lm d scores (top_k scores (n FLAGS))) as Hres.
  rewrite Hall in Hev, Hres. rewrite decide_True in Hres by done.
  unfold events, result in *.
  destruct (for_each _ _) as [evs res]; simpl in *; subst. split; [done|].
  rewrite printed_fmap_EvPrint.
  pose proof (reported_lines lm d scores (top_k scores (n FLAGS))) as Hsome.
  rewrite Hall in Hsome. symmetry.
  by eapply Forall2_length, omap_Forall2.
Qed.

End Printed.

(** ** Number formatting *)

Lemma round_half_even_near q :
  (Qabs (q - inject_Z (round_half_even q)) <= 1 # 2)%Q.
Proof.
  unfold round_half_even.
  pose proof (Qfloor_le q) as Hlo. pose proof (Qlt_floor q) as Hhi.
  rewrite inject_Z_plus in Hhi. change (inject_Z 1) with 1%Q in Hhi.
  apply Qabs_Qle_condition.
  destruct (Qcompare_spec (q - inject_Z (Qfloor q)) (1 # 2)) as [He|Hl|Hg].
  - destruct (Z.even (Qfloor q)); rewrite ?inject_Z_plus;
      change (inject_Z 1) with 1%Q; lra.
  - lra.
  - rewrite inject_Z_plus. change (inject_Z 1) with 1%Q. lra.
Qed.

Lemma round_half_even_nonneg q : (0 <= q)%Q → (0 ≤ round_half_even q)%Z.
Proof.
  intros Hq. unfold round_half_even.
  assert (0 ≤ Qfloor q)%Z as Hfl.
  { change 0%Z with (Qfloor 0). by apply Qfloor_resp_le. }
  destruct (Qcompare _ _); [destruct (Z.even _)|..]; lia.
Qed.

Lemma digit_char d :
  ∃ c, PyFormat.digit d = String c "" ∧ is_digit c ∧ digit_value c = (d `mod` 10)%Z.
Proof.
  unfold PyFormat.digit, is_digit, digit_value.
  pose proof (Z.mod_pos_bound d 10 eq_refl) as Hm.
  assert (Hcases : (d `mod` 10 = 0 ∨ d `mod` 10 = 1 ∨ d `mod` 10 = 2
     ∨ d `mod` 10 = 3 ∨ d `mod` 10 = 4 ∨ d `mod` 10 = 5 ∨ d `mod` 10 = 6
     ∨ d `mod` 10 = 7 ∨ d `mod` 10 = 8 ∨ d `mod` 10 = 9)%Z) by lia.
  repeat destruct Hcases as [->|Hcases]; try rewrite Hcases;
    eexists; (split; [reflexivity|]); vm_compute; (split; [split|]);
    (reflexivity || (repeat constructor)).
Qed.

Lemma format_2f_two_decimals score : two_decimals score (PyFormat.format_2f score).
Proof.
  unfold two_decimals, PyFormat.format_2f.
  set (c := round_half_even (Qabs score * 100)).
  assert (0 ≤ c)%Z as Hc.
  { apply round_half_even_nonneg. pose proof (Qabs_nonneg score). lra. }
  destruct (digit_char (c `div` 10)) as (d1 & -> & Hd1 & Hv1).
  destruct (digit_char c) as (d2 & -> & Hd2 & Hv2).
  exists (c `div` 100)%Z, d1, d2. split_and!; try done.
  - by apply Z.div_pos.
  - rewrite Hv1, Hv2.
    replace (100 * c `div` 100 + 10 * (c `div` 10) `mod` 10 + c `mod` 10)%Z with c.
    + apply round_half_even_near.
    + pose proof (Z.div_mod c 10 ltac:(lia)).
      pose proof (Z.div_mod (c `div` 10) 10 ltac:(lia)).
      pose proof (Z.div_div c 10 10 ltac:(lia) ltac:(lia)) as Hdd.
      change (10 * 10)%Z with 100%Z in Hdd. lia.
Qed.

(** ** Binary floating point: rounding *)

Section Pow2.

Import Binary.

Lemma pow2_pos e : (0 < pow2 e)%Q.
Proof. by apply Qpower_0_lt. Qed.

Lemma pow2_add a b : (pow2 (a + b) == pow2 a * pow2 b)%Q.
Proof. by apply Qpower_plus. Qed.

Lemma pow2_succ a : (pow2 (a + 1) == 2 * pow2 a)%Q.
Proof. rewrite pow2_add. change (pow2 1) with 2%Q. ring. Qed.

Lemma pow2_inject z : (0 ≤ z)%Z → (pow2 z == inject_Z (2 ^ z))%Q.
Proof. intros Hz. symmetry. by apply (Zpower_Qpower 2). Qed.

Lemma pow2_le a b : (a ≤ b)%Z → (pow2 a <= pow2 b)%Q.
Proof. intros Hab. by apply Qpower_le_compat_l. Qed.

Lemma pow2_lt_inv a b : (pow2 a < pow2 b)%Q → (a < b)%Z.
Proof. intros Hab. by eapply Qpower_lt_compat_l_inv. Qed.

Lemma pow2_le_inv a b : (pow2 a <= pow2 b)%Q → (a ≤ b)%Z.
Proof. intros Hab. by eapply Qpower_le_compat_l_inv. Qed.

(** The leading bit: [2^ilog2 q <= q < 2^(ilog2 q + 1)]. *)
Lemma ilog2_spec q :
  (0 < q)%Q → (pow2 (ilog2 q) <= q < pow2 (ilog2 q + 1))%Q.
Proof.
  intros Hq. unfold ilog2.
  destruct q as [a b]. assert (0 < a)%Z as Ha.
  { unfold Qlt in Hq. simpl in Hq. lia. }
  cbn [Qnum Qden].
  set (la := Z.log2 a). set (lb := Z.log2 (Z.pos b)).
  pose proof (Z.log2_spec a Ha) as [Hal Hau]. fold la in Hal, Hau.
  pose proof (Z.log2_spec (Z.pos b) eq_refl) as [Hbl Hbu]. fold lb in Hbl, Hbu.
  pose proof (Z.log2_nonneg a) as Hla. fold la in Hla.
  pose proof (Z.log2_nonneg (Z.pos b)) as Hlb. fold lb in Hlb.
  (* everything in terms of 2^la and 2^lb *)
  assert (pow2 (la - lb) * inject_Z (2 ^ lb) == inject_Z (2 ^ la))%Q as Hk.
  { rewrite <-!pow2_inject by done. rewrite <-pow2_add.
    by replace (la - lb + lb)%Z with la by lia. }
  assert (0 < inject_Z (2 ^ lb))%Q as HB.
  { rewrite <-pow2_inject by done. apply pow2_pos. }
  assert (0 < inject_Z (2 ^ la))%Q as HA.
  { rewrite <-pow2_inject by done. apply pow2_pos. }
  pose proof (pow2_pos (la - lb)) as HP.
  assert (a # b == inject_Z a / inject_Z (Z.pos b))%Q as Hab by apply Qmake_Qdiv.
  assert (0 < inject_Z (Z.pos b))%Q as Hb0 by (unfold Qlt; simpl; lia).
  rewrite Zle_Qle in Hal, Hbl. rewrite Zlt_Qlt in Hau, Hbu.
  rewrite Z.pow_succ_r, inject_Z_mult in Hau, Hbu by done.
  change (inject_Z 2) with 2%Q in Hau, Hbu.
  set (A := inject_Z (2 ^ la)) in *. set (B := inject_Z (2 ^ lb)) in *.
  set (x := inject_Z a) in *. set (y := inject_Z (Z.pos b)) in *.
  set (P := pow2 (la - lb)) in *.
  assert (a # b == x / y)%Q as Hq' by done.
  (* q * y = x *)
  assert ((a # b) * y == x)%Q as Hxy.
  { rewrite Hq'. field. intros Hy0. rewrite Hy0 in Hb0. by apply Qlt_irrefl in Hb0. }
  destruct (decide (P <= a # b)%Q) as [Hle|Hgt].
  - split; [done|]. rewrite pow2_succ. fold P.
    (* q < 2P: q*y = x < 2A = 2 P B <= 2 P y *)
    apply (Qmult_lt_r _ _ y Hb0). rewrite Hxy. nra.
  - apply Qnot_le_lt in Hgt. split.
    + (* P/2 <= q: P/2 * y < P/2 * 2B = A <= x = q*y *)
      apply (Qmult_le_r _ _ y Hb0). rewrite Hxy.
      assert (pow2 (la - lb - 1) * 2 == P)%Q as Hhalf.
      { unfold P. replace (la - lb)%Z with ((la - lb - 1) + 1)%Z at 2 by lia.
        rewrite pow2_succ. ring. }
      pose proof (pow2_pos (la - lb - 1)). nra.
    + by replace (la - lb - 1 + 1)%Z with (la - lb)%Z by lia.
Qed.

Lemma ilog2_unique q k :
  (pow2 k <= q < pow2 (k + 1))%Q → ilog2 q = k.
Proof.
  intros [Hl Hu].
  assert (0 < q)%Q as Hq by (eapply Qlt_le_trans; [apply pow2_pos|done]).
  destruct (ilog2_spec q Hq) as [Hl' Hu'].
  assert (ilog2 q < k + 1)%Z by (apply pow2_lt_inv; by eapply Qle_lt_trans).
  assert (k < ilog2 q + 1)%Z by (apply pow2_lt_inv; by eapply Qle_lt_trans).
  lia.
Qed.

Lemma ilog2_le q k : (0 < q)%Q → (q <= pow2 k)%Q → (ilog2 q ≤ k)%Z.
Proof.
  intros Hq Hk. destruct (ilog2_spec q Hq) as [Hl _].
  apply pow2_le_inv. by eapply Qle_trans.
Qed.

End Pow2.

Section Rounding.

Import Binary.

#[global] Instance round_half_even_proper : Proper (Qeq ==> eq) round_half_even.
Proof.
  intros x y Hxy. unfold round_half_even. rewrite (Qfloor_comp _ _ Hxy).
  assert (x - inject_Z (Qfloor y) == y - inject_Z (Qfloor y))%Q as Hd
    by (by rewrite Hxy).
  by rewrite (Qcompare_comp _ _ Hd _ _ (Qeq_refl _)).
Qed.

Lemma round_half_even_le q N : (q <= inject_Z N)%Q → (round_half_even q ≤ N)%Z.
Proof.
  intros HN. unfold round_half_even.
  pose proof (Qfloor_le q) as Hfl.
  destruct (Qcompare_spec (q - inject_Z (Qfloor q)) (1 # 2)) as [He|Hl|Hg].
  - assert (inject_Z (Qfloor q) < inject_Z N)%Q as Hlt by lra.
    rewrite <-Zlt_Qlt in Hlt. destruct (Z.even _); lia.
  - assert (inject_Z (Qfloor q) <= inject_Z N)%Q as Hle by lra.
    by rewrite <-Zle_Qle in Hle.
  - assert (inject_Z (Qfloor q) < inject_Z N)%Q as Hlt by lra.
    rewrite <-Zlt_Qlt in Hlt. lia.
Qed.

Lemma round_half_even_ge q N : (inject_Z N <= q)%Q → (N ≤ round_half_even q)%Z.
Proof.
  intros HN. unfold round_half_even.
  assert (N ≤ Qfloor q)%Z as Hfl.
  { rewrite <-(Qfloor_Z N). by apply Qfloor_resp_le. }
  destruct (Qcompare _ _); [destruct (Z.even _)|..]; lia.
Qed.

Lemma round_half_even_below_half q N :
  (inject_Z N <= q < inject_Z N + (1 # 2))%Q → round_half_even q = N.
Proof.
  intros [Hl Hu]. unfold round_half_even.
  assert (Qfloor q = N) as ->.
  { pose proof (Qfloor_le q) as Hfl.
    assert (N ≤ Qfloor q)%Z.
    { rewrite <-(Qfloor_Z N). by apply Qfloor_resp_le. }
    assert (inject_Z (Qfloor q) < inject_Z (N + 1))%Q as Hlt.
    { rewrite inject_Z_plus. change (inject_Z 1) with 1%Q. lra. }
    rewrite <-Zlt_Qlt in Hlt. lia. }
  destruct (Qcompare_spec (q - inject_Z N) (1 # 2)) as [He|Hlt|Hg]; [lra|done|lra].
Qed.

Lemma round_half_even_error q :
  (Qabs (inject_Z (round_half_even q) - q) <= 1 # 2)%Q.
Proof. rewrite Qabs_Qminus. apply round_half_even_near. Qed.

Context (f : format) (Hprec : (1 ≤ prec f)%Z).

Lemma rnd_unfold x :
  (rnd f x == inject_Z (round_half_even (x / pow2 (ulp_exp f x)))
              * pow2 (ulp_exp f x))%Q.
Proof. unfold rnd. apply Qred_correct. Qed.

Lemma rnd_zero x : (x == 0)%Q → (rnd f x == 0)%Q.
Proof.
  intros Hx. rewrite rnd_unfold. generalize (pow2 (ulp_exp f x)). intros P.
  assert (x / P == 0)%Q as -> by (rewrite Hx; unfold Qdiv; ring).
  change (round_half_even 0) with 0%Z. ring.
Qed.

Lemma rnd_nonneg x : (0 <= x)%Q → (0 <= rnd f x)%Q.
Proof.
  intros Hx. rewrite rnd_unfold. pose proof (pow2_pos (ulp_exp f x)) as He.
  apply Qmult_le_0_compat; [|lra].
  change 0%Q with (inject_Z 0). rewrite <-Zle_Qle.
  apply round_half_even_ge. change (inject_Z 0) with 0%Q.
  apply Qle_shift_div_l; [done|lra].
Qed.

Lemma Qabs_pos_nonzero x : ¬ (x == 0)%Q → (0 < Qabs x)%Q.
Proof.
  intros Hx. destruct (Qlt_le_dec 0 (Qabs x)) as [|Hle]; [done|].
  destruct Hx. apply Qabs_Qle_condition in Hle. lra.
Qed.

(** Below [2^(k+1)] the unit in the last place is at most
    [2^(k - (prec - 1))], or the smallest one. *)
Lemma ulp_exp_lt x k :
  ¬ (x == 0)%Q → (Qabs x < pow2 (k + 1))%Q →
  (ulp_exp f x ≤ Z.max (emin f) (k - (prec f - 1)))%Z.
Proof.
  intros Hx Hb. unfold ulp_exp.
  destruct (ilog2_spec (Qabs x) (Qabs_pos_nonzero x Hx)) as [Hl _].
  assert (ilog2 (Qabs x) < k + 1)%Z
    by (apply pow2_lt_inv; by eapply Qle_lt_trans).
  lia.
Qed.

Lemma ulp_exp_le x k :
  ¬ (x == 0)%Q → (emin f ≤ k)%Z → (Qabs x <= pow2 k)%Q → (ulp_exp f x ≤ k)%Z.
Proof.
  intros Hx Hk Hb. unfold ulp_exp.
  pose proof (ilog2_le (Qabs x) k (Qabs_pos_nonzero x Hx) Hb). lia.
Qed.

(** Rounding does not step over a power of two. *)
Lemma rnd_bounds x k :
  (emin f ≤ k)%Z → (- pow2 k <= x <= pow2 k)%Q →
  (- pow2 k <= rnd f x <= pow2 k)%Q.
Proof.
  intros Hk Hx. pose proof (pow2_pos k) as Hpk.
  destruct (Qeq_dec x 0) as [H0|H0].
  { rewrite (rnd_zero x H0). lra. }
  assert (ulp_exp f x ≤ k)%Z as He.
  { apply ulp_exp_le; [done..|]. by apply Qabs_Qle_condition. }
  rewrite rnd_unfold. set (e := ulp_exp f x) in *.
  pose proof (pow2_pos e) as Hpe.
  assert (pow2 k == inject_Z (2 ^ (k - e)) * pow2 e)%Q as HN.
  { rewrite <-pow2_inject by lia. rewrite <-pow2_add.
    by replace (k - e + e)%Z with k by lia. }
  assert (round_half_even (x / pow2 e) ≤ 2 ^ (k - e))%Z as Hu.
  { apply round_half_even_le, Qle_shift_div_r; [done|]. rewrite <-HN. lra. }
  assert (- 2 ^ (k - e) ≤ round_half_even (x / pow2 e))%Z as Hl.
  { apply round_half_even_ge, Qle_shift_div_l; [done|].
    rewrite inject_Z_opp.
    assert (- inject_Z (2 ^ (k - e)) * pow2 e == - pow2 k)%Q as ->
      by (rewrite HN; ring).
    lra. }
  rewrite Zle_Qle in Hu, Hl. rewrite inject_Z_opp in Hl.
  rewrite HN. split.
  - assert (- (inject_Z (2 ^ (k - e)) * pow2 e)
            == (- inject_Z (2 ^ (k - e))) * pow2 e)%Q as -> by ring.
    by apply Qmult_le_compat_r; [|lra].
  - by apply Qmult_le_compat_r; [|lra].
Qed.

(** The rounding error is at most half a unit in the last place. *)
Lemma rnd_error x :
  (Qabs (rnd f x - x) <= (1 # 2) * pow2 (ulp_exp f x))%Q.
Proof.
  rewrite rnd_unfold. set (e := ulp_exp f x). pose proof (pow2_pos e) as Hpe.
  pose proof (round_half_even_error (x / pow2 e)) as Herr.
  assert (inject_Z (round_half_even (x / pow2 e)) * pow2 e - x
          == (inject_Z (round_half_even (x / pow2 e)) - x / pow2 e) * pow2 e)%Q
    as -> by (field; lra).
  rewrite Qabs_Qmult, (Qabs_pos (pow2 e)) by lra.
  by apply Qmult_le_compat_r; [|lra].
Qed.

Lemma rnd_error_lt x k :
  (emin f ≤ k - (prec f - 1))%Z → (Qabs x < pow2 (k + 1))%Q →
  (Qabs (rnd f x - x) <= pow2 (k - prec f))%Q.
Proof.
  intros Hk Hx. destruct (Qeq_dec x 0) as [H0|H0].
  { rewrite (rnd_zero x H0), H0. pose proof (pow2_pos (k - prec f)).
    change (Qabs (0 - 0)) with 0%Q. lra. }
  pose proof (ulp_exp_lt x k H0 Hx) as He.
  eapply Qle_trans; [apply rnd_error|].
  assert (pow2 (ulp_exp f x) <= pow2 (k - (prec f - 1)))%Q as Hp
    by (apply pow2_le; lia).
  assert (pow2 (k - (prec f - 1)) == 2 * pow2 (k - prec f))%Q as Hs.
  { rewrite <-pow2_succ. by replace (k - prec f + 1)%Z with (k - (prec f - 1))%Z by lia. }
  lra.
Qed.

End Rounding.

(** ** The normalisation in binary32 *)

Section Normalize32.

Import Binary.

(** [1.0/127.5], a double, as a float32 constant. *)
Lemma scale_value : fl32 (py_div 1.0 127.5) = (8421505 # 1073741824)%Q.
Proof. vm_compute. reflexivity. Qed.

Lemma fl32_one : fl32 1.0 = 1%Q.
Proof. vm_compute. reflexivity. Qed.

Lemma normalize_unfold v :
  normalize v = fl32 (fl32 (v * (8421505 # 1073741824)) - 1).
Proof. unfold normalize. by rewrite scale_value, fl32_one. Qed.

Lemma fl32_just_above_two x :
  (2 <= x <= 2 + (127 # 1073741824))%Q → (fl32 x == 2)%Q.
Proof.
  intros [Hl Hu].
  assert (ilog2 (Qabs x) = 1%Z) as Hlog.
  { apply ilog2_unique. rewrite (Qabs_pos x) by lra.
    change (pow2 1) with 2%Q. change (pow2 (1 + 1)) with 4%Q. lra. }
  unfold fl32. rewrite rnd_unfold. unfold ulp_exp. rewrite Hlog.
  change (Z.max (emin binary32) (1 - (prec binary32 - 1))) with (-22)%Z.
  assert (pow2 (-22) == 1 # 4194304)%Q as Hp by reflexivity.
  rewrite (round_half_even_below_half _ 8388608).
  - rewrite Hp. reflexivity.
  - rewrite Hp. change (inject_Z 8388608) with 8388608%Q.
    assert (x / (1 # 4194304) == x * 4194304)%Q as -> by (field; lra).
    lra.
Qed.

Lemma scaled_bounds v :
  (0 <= v <= 255)%Q →
  (0 <= fl32 (v * (8421505 # 1073741824)) <= 2)%Q.
Proof.
  intros [Hl Hu]. split; [apply rnd_nonneg; lra|].
  destruct (Qlt_le_dec 2 (v * (8421505 # 1073741824))) as [Hgt|Hle].
  - rewrite fl32_just_above_two; lra.
  - apply (rnd_bounds binary32 ltac:(done) (v * (8421505 # 1073741824))%Q 1);
      [done|].
    change (pow2 1) with 2%Q. lra.
Qed.

Lemma normalize_range v : (0 <= v <= 255)%Q → (-1 <= normalize v <= 1)%Q.
Proof.
  intros Hv. destruct (scaled_bounds v Hv) as [Hl Hu].
  rewrite normalize_unfold.
  apply (rnd_bounds binary32 ltac:(done) _ 0); [done|].
  change (pow2 0) with 1%Q. lra.
Qed.

Lemma normalize_error v :
  (0 <= v <= 255)%Q →
  (Qabs (normalize v - (v / 127.5 - 1)) <= 1 # 2097152)%Q.
Proof.
  intros Hv. destruct (scaled_bounds v Hv) as [Hl Hu].
  rewrite normalize_unfold.
  assert (Qabs (fl32 (v * (8421505 # 1073741824)) - v * (8421505 # 1073741824))
          <= pow2 (-23))%Q as Het.
  { apply (rnd_error_lt binary32 (v * (8421505 # 1073741824))%Q 1); [done|].
    rewrite Qabs_pos by (destruct Hv; lra).
    change (pow2 (1 + 1)) with 4%Q. destruct Hv. lra. }
  set (t := fl32 (v * (8421505 # 1073741824))) in *.
  assert (Qabs (fl32 (t - 1) - (t - 1)) <= pow2 (-24))%Q as Her.
  { apply (rnd_error_lt binary32 (t - 1)%Q 0); [done|].
    change (pow2 (0 + 1)) with 2%Q.
    apply Qle_lt_trans with 1%Q; [|done]. apply Qabs_Qle_condition. lra. }
  assert (pow2 (-23) == 1 # 8388608)%Q as H23 by reflexivity.
  assert (pow2 (-24) == 1 # 16777216)%Q as H24 by reflexivity.
  rewrite H23 in Het. rewrite H24 in Her.
  apply Qabs_Qle_condition in Het, Her. apply Qabs_Qle_condition.
  assert (v / 127.5 == v * (2 # 255))%Q as -> by (field; lra).
  destruct Hv. lra.
Qed.

End Normalize32.

(** * Part III: the claims *)

(** ** C1: how many classes are printed *)


(** With a top-N count of zero, a score per class and label files that
    load, the loop prints a line for every class. *)
Lemma report_prints_every_class_at_zero
    (fs : gmap string string) (FLAGS : Flags) {sorter : Argsort}
    (scores : list Q) (lm : list string) (d : gmap string string) :
  n FLAGS = 0%Z →
  Z.of_nat (length scores) = num_classes FLAGS →
  LoadLabelMaps fs (num_classes FLAGS) (labelmap FLAGS) (dict FLAGS)
    = ([], Returns (lm, d)) →
  length (printed (events (report fs FLAGS scores))) = length scores.
Proof.
  intros Hn Hlen Hload.
  destruct (report_prints_all fs FLAGS scores lm d Hload Hlen) as (_ & _ & ->).
  rewrite Hn. apply top_k_zero_length.
Qed.

(** C1, at the failing input.  With [--n 0] the slice [[-0:]] is the
    whole list: the demo run, three classes, prints three lines where
    the claim has [min(0, 3) = 0]; for every score vector [top_k] at
    zero is the full reversed [argsort]. *)
Theorem top_zero_prints_every_class {sorter : Argsort} :
  let r := main (Demo.lib Demo.scores3) Demo.fs_full (Demo.flags 3 0) in
  result r = Returns () ∧
  length (printed (events r)) = 3%nat ∧
  ∀ scores, top_k scores 0 = reverse (argsort scores).
Proof.
  intros r.
  assert (infer (Demo.lib Demo.scores3) Demo.fs_full (Demo.flags 3 0)
          = ([EvSessRun], Returns Demo.scores3)) as Hi by reflexivity.
  assert (∃ d, LoadLabelMaps Demo.fs_full 3 "data/2016_08/labelmap.txt" "dict.csv"
               = ([], Returns (["/m/01yrx"; "/m/0jbk"; "/m/04rky"], d)))
    as [d Hload] by (eexists; vm_compute; reflexivity).
  destruct (report_prints_all Demo.fs_full (Demo.flags 3 0) Demo.scores3 _ d
              Hload eq_refl) as (_ & Hrun & Hcount).
  subst r. rewrite (main_infer_returns _ _ _ _ _ Hi). split_and!.
  - by rewrite Hrun.
  - unfold events at 1. simpl. rewrite Hcount. apply top_k_zero_length.
  - apply top_k_zero.
Qed.

(** ** C2: descending order *)

(** C2.  For every score vector, the lines printed by the reporting
    stage are the lines of a sequence of indices, a prefix of [top_k],
    taken in order; along that sequence the scores never increase. *)
Theorem printed_indices_descending
    (fs : gmap string string) (FLAGS : Flags) {sorter : Argsort} (scores : list Q) :
  ∃ (idxs : list nat) (lm : list string) (d : gmap string string),
    idxs `prefix_of` top_k scores (n FLAGS) ∧
    Forall2 (λ idx line, ∃ mid score,
               lm !! idx = Some mid ∧ scores !! idx = Some score ∧
               line = PyFormat.format_line idx mid
                        (default "unknown" (d !! mid)) score)
      idxs (printed (events (report fs FLAGS scores))) ∧
    (∀ i j a b x y,
       (i < j)%nat → idxs !! i = Some a → idxs !! j = Some b →
       scores !! a = Some x → scores !! b = Some y → (y <= x)%Q) ∧
    (∀ i j a b x y,
       (i < j)%nat →
       top_k scores (n FLAGS) !! i = Some a → top_k scores (n FLAGS) !! j = Some b →
       scores !! a = Some x → scores !! b = Some y → (y <= x)%Q).
Proof.
  destruct (report_lines fs FLAGS scores) as (idxs & lm & d & Hpre & Hlines & _).
  exists idxs, lm, d. split_and!; [done| | |].
  - eapply Forall2_impl; [done|]. intros idx line Hl. by apply line_of_Some in Hl.
  - intros i j a b x y Hij Ha Hb Hx Hy.
    eapply (top_k_descending scores (n FLAGS) i j a b); try done;
      by eapply prefix_lookup.
  - apply top_k_descending.
Qed.

(** ** C3: the fatal paths of [main] *)

(** C3, counterexample.  With three label-map lines for four classes the
    label map is malformed: the run logs and exits, but only after
    inference has run.  With the label-map file missing, inference has
    run as well, and nothing is logged: opening the file raises. *)
Lemma label_map_checked_after_inference :
  let r1 := main (Demo.lib Demo.scores3) Demo.fs_full (Demo.flags 4 2) in
  let r2 := main (Demo.lib Demo.scores3)
              (delete "data/2016_08/labelmap.txt" Demo.fs_full) (Demo.flags 3 2) in
  ¬ (Z.of_nat (length (PyStr.readlines Demo.labelmap_txt)) ≠ 4%Z →
     logged (events r1) ≠ [] ∧ halted r1 ∧
     ¬ ran_inference (events r1) ∧ printed (events r1) = []) ∧
  ¬ (delete "data/2016_08/labelmap.txt" Demo.fs_full
       !! "data/2016_08/labelmap.txt" = None →
     logged (events r2) ≠ [] ∧ halted r2 ∧
     ¬ ran_inference (events r2) ∧ printed (events r2) = []).
Proof.
  intros r1 r2. split.
  - intros Hclaim.
    destruct Hclaim as (_ & _ & Hno & _); [vm_compute; discriminate|].
    apply Hno. vm_compute. apply list_elem_of_here.
  - intros Hclaim. destruct (Hclaim eq_refl) as (Hlog & _). by apply Hlog.
Qed.

(** C3, amended.  A missing checkpoint file or a missing image file ends
    the run with a logged fatal message, before inference and without a
    printed prediction.  A label-map file that is missing, or whose line
    count differs from [num_classes], and a checkpoint or an image that
    is there but does not load, end the run without a printed prediction.
    The label map is only opened after inference: with a checkpoint and
    an image that load, a wrong line count gives the run [sess.run], the
    logged line-count message, [sys.exit(1)]. *)
Theorem main_fatal_paths (lib : Library) (fs : gmap string string) (FLAGS : Flags)
    {sorter : Argsort} :
  let r := main lib fs FLAGS in
  (fs !! checkpoint FLAGS = None ∨ fs !! image_path FLAGS = None →
     logged (events r) ≠ [] ∧ halted r ∧
     ¬ ran_inference (events r) ∧ printed (events r) = []) ∧
  (fs !! labelmap FLAGS = None ∨
   (∃ data, fs !! labelmap FLAGS = Some data ∧
      Z.of_nat (length (PyStr.readlines data)) ≠ num_classes FLAGS) →
     halted r ∧ printed (events r) = []) ∧
  (∀ ckpt jpeg,
     fs !! checkpoint FLAGS = Some ckpt →
     fs !! image_path FLAGS = Some jpeg →
     restore_inception_v3 lib ckpt (num_classes FLAGS) = None ∨
     decode_jpeg lib jpeg = None →
     halted r ∧ printed (events r) = []) ∧
  (∀ ckpt net jpeg pixels data,
     fs !! checkpoint FLAGS = Some ckpt →
     restore_inception_v3 lib ckpt (num_classes FLAGS) = Some net →
     fs !! image_path FLAGS = Some jpeg →
     decode_jpeg lib jpeg = Some pixels →
     fs !! labelmap FLAGS = Some data →
     Z.of_nat (length (PyStr.readlines data)) ≠ num_classes FLAGS →
     r = ([EvSessRun;
           EvLogFatal (label_map_message (labelmap FLAGS)
                         (length (PyStr.readlines data)) (num_classes FLAGS))],
          Halts (SysExit 1))).
Proof.
  intros r. subst r. split_and!.
  - intros Hmissing.
    case_infer Hi; try (destruct Hmissing; congruence).
    all: rewrite (main_infer_halts _ _ _ _ _ Hi); unfold ran_inference; simpl.
    all: split_and!; [done|by eexists| |done].
    all: rewrite ?elem_of_cons, elem_of_nil; intuition discriminate.
  - intros Hbad.
    assert (∃ evs h, LoadLabelMaps fs (num_classes FLAGS) (labelmap FLAGS) (dict FLAGS)
                     = (evs, Halts h) ∧ printed evs = []) as (evs & h & Hload & Hp).
    { destruct Hbad as [Hnone|(data & Hsome & Hne)].
      - do 2 eexists. split; [by apply LoadLabelMaps_no_labelmap|done].
      - do 2 eexists. split; [by apply LoadLabelMaps_mismatch|done]. }
    destruct (main_printed lib fs FLAGS) as [[Hpr Hh]|(scores & Hi & Hpr)]; [done|].
    rewrite (main_infer_returns _ _ _ _ _ Hi), (report_halts _ _ _ _ _ Hload).
    split; [by eexists|]. simpl. by rewrite Hp.
  - intros ckpt0 jpeg0 Hc Hj Hbad.
    case_infer Hi; try congruence.
    1-2: rewrite (main_infer_halts _ _ _ _ _ Hi); split; [by eexists|done].
    destruct Hbad; congruence.
  - intros ckpt0 net0 jpeg0 pixels0 data Hc Hr Hj Hd Hl Hne.
    case_infer Hi; try congruence.
    rewrite (main_infer_returns _ _ _ _ _ Hi).
    by rewrite (report_halts _ _ _ _ _
                  (LoadLabelMaps_mismatch _ _ _ _ _ Hl Hne)).
Qed.

(** C3, witness: the demo run without its image file, and the demo run
    with four classes declared for a label map of three lines. *)
Lemma main_fatal_paths_witness :
  delete "/tmp/cat.jpg" Demo.fs_full !! "/tmp/cat.jpg" = None ∧
  (let r := main (Demo.lib Demo.scores3) (delete "/tmp/cat.jpg" Demo.fs_full)
              (Demo.flags 3 2) in
   logged (events r) ≠ [] ∧ halted r ∧
   ¬ ran_inference (events r) ∧ printed (events r) = []) ∧
  main (Demo.lib Demo.scores3) Demo.fs_full (Demo.flags 4 2)
  = ([EvSessRun;
      EvLogFatal "Label map loaded from data/2016_08/labelmap.txt contains 3 lines while the number of classes is 4"],
     Halts (SysExit 1)).
Proof.
  split; [reflexivity|]. split.
  - destruct (main_fatal_paths (Demo.lib Demo.scores3)
                (delete "/tmp/cat.jpg" Demo.fs_full) (Demo.flags 3 2))
      as (Hmissing & _ & _ & _).
    apply Hmissing. right. reflexivity.
  - destruct (main_fatal_paths (Demo.lib Demo.scores3) Demo.fs_full (Demo.flags 4 2))
      as (_ & _ & _ & Hlate).
    apply (Hlate "ckpt" (λ _, Demo.scores3) "jpeg" [0; 255; 51]%Q Demo.labelmap_txt);
      try reflexivity.
    vm_compute. discriminate.
Defined.

(** ** C4: when [LoadLabelMaps] exits *)

(** C4, counterexample.  The label map has as many lines as there are
    classes (three), and still [LoadLabelMaps] does not return: the
    dict.csv line without a comma raises [IndexError]. *)
Lemma LoadLabelMaps_equal_counts_no_return :
  ¬ (Z.of_nat (length (PyStr.readlines Demo.labelmap_txt)) = 3%Z →
     ∃ v, result (LoadLabelMaps Demo.fs_bad_dict 3
                    "data/2016_08/labelmap.txt" "dict.csv") = Returns v).
Proof. intros Hret. destruct (Hret eq_refl) as [v Hv]. vm_compute in Hv. done. Qed.

(** C4, amended.  For a label-map file that can be read,
    [LoadLabelMaps] exits through [sys.exit(1)], after logging exactly
    the line-count message, if and only if the number of lines differs
    from [num_classes].  When the counts are equal it logs nothing and
    does not exit; it returns the stripped lines and the dictionary
    provided dict.csv can be read and every line of it has a comma. *)
Theorem LoadLabelMaps_exit_iff_mismatch
    (fs : gmap string string) (classes : Z) (labelmap_path dict_path data : string) :
  fs !! labelmap_path = Some data →
  let count := length (PyStr.readlines data) in
  let r := LoadLabelMaps fs classes labelmap_path dict_path in
  ((∃ code, result r = Halts (SysExit code)) ↔ Z.of_nat count ≠ classes) ∧
  (Z.of_nat count ≠ classes →
     r = ([EvLogFatal (label_map_message labelmap_path count classes)],
          Halts (SysExit 1))) ∧
  (Z.of_nat count = classes →
     logged (events r) = [] ∧
     ∀ ddata, fs !! dict_path = Some ddata →
       Forall has_comma (PyStr.readlines ddata) →
       ∃ label_dict,
         r = ([], Returns (PyStr.rstrip <$> PyStr.readlines data, label_dict))).
Proof.
  intros Hl count r. split_and!.
  - split.
    + intros [code Hexit] Heq. subst r.
      destruct (fs !! dict_path) as [ddata|] eqn:Hd.
      * destruct (decide (Forall has_comma (PyStr.readlines ddata))) as [Hall|Hex].
        -- destruct (LoadLabelMaps_good fs classes labelmap_path dict_path
                       data ddata Hl Heq Hd Hall) as (d & _ & Hr).
           by rewrite Hr in Hexit.
        -- apply not_Forall_Exists in Hex; [|apply _].
           by rewrite (LoadLabelMaps_bad_dict fs classes labelmap_path dict_path
                         data ddata Hl Heq Hd Hex) in Hexit.
      * by rewrite (LoadLabelMaps_no_dict fs classes labelmap_path dict_path
                      data Hl Heq Hd) in Hexit.
    + intros Hne. exists 1%Z. subst r.
      by rewrite (LoadLabelMaps_mismatch fs classes labelmap_path dict_path data Hl Hne).
  - intros Hne. by apply LoadLabelMaps_mismatch.
  - intros Heq. split.
    + destruct (LoadLabelMaps_cases fs classes labelmap_path dict_path)
        as [H|[[msg H]|[H|[v H]]]]; fold r in H; rewrite H; try done.
      exfalso. subst r.
      destruct (fs !! dict_path) as [ddata|] eqn:Hd.
      * destruct (decide (Forall has_comma (PyStr.readlines ddata))) as [Hall|Hex].
        -- destruct (LoadLabelMaps_good fs classes labelmap_path dict_path
                       data ddata Hl Heq Hd Hall) as (d & _ & Hr).
           by rewrite Hr in H.
        -- apply not_Forall_Exists in Hex; [|apply _].
           by rewrite (LoadLabelMaps_bad_dict fs classes labelmap_path dict_path
                         data ddata Hl Heq Hd Hex) in H.
      * by rewrite (LoadLabelMaps_no_dict fs classes labelmap_path dict_path
                      data Hl Heq Hd) in H.
    + intros ddata Hd Hall.
      destruct (LoadLabelMaps_good fs classes labelmap_path dict_path
                  data ddata Hl Heq Hd Hall) as (d & _ & Hr).
      by exists d.
Qed.

(** C4, witness: the demo files, once with three classes and once with four. *)
Lemma LoadLabelMaps_exit_iff_mismatch_witness :
  Demo.fs_full !! "data/2016_08/labelmap.txt" = Some Demo.labelmap_txt ∧
  (∃ label_dict,
     LoadLabelMaps Demo.fs_full 3 "data/2016_08/labelmap.txt" "dict.csv"
     = ([], Returns (["/m/01yrx"; "/m/0jbk"; "/m/04rky"], label_dict))) ∧
  LoadLabelMaps Demo.fs_full 4 "data/2016_08/labelmap.txt" "dict.csv"
  = ([EvLogFatal "Label map loaded from data/2016_08/labelmap.txt contains 3 lines while the number of classes is 4"],
     Halts (SysExit 1)).
Proof.
  split; [reflexivity|]. split.
  - destruct (LoadLabelMaps_exit_iff_mismatch Demo.fs_full 3
                "data/2016_08/labelmap.txt" "dict.csv" Demo.labelmap_txt eq_refl)
      as (_ & _ & Hgood).
    destruct (Hgood eq_refl) as [_ Hret].
    apply (Hret Demo.dict_csv eq_refl). vm_compute. repeat constructor.
  - destruct (LoadLabelMaps_exit_iff_mismatch Demo.fs_full 4
                "data/2016_08/labelmap.txt" "dict.csv" Demo.labelmap_txt eq_refl)
      as (_ & Hbad & _).
    apply Hbad. vm_compute. discriminate.
Defined.

(** ** C5, C6, C7: the parts of a printed line *)

Section Lines.

Context (lib : Library) (fs : gmap string string) (FLAGS : Flags).
Context {sorter : Argsort}.

(** Every printed line, with all that went into it. *)
Lemma main_line_inv line :
  line ∈ printed (events (main lib fs FLAGS)) →
  ∃ scores data ddata label_dict idx raw score,
    infer lib fs FLAGS = ([EvSessRun], Returns scores) ∧
    fs !! labelmap FLAGS = Some data ∧
    fs !! dict FLAGS = Some ddata ∧
    dict_loop ∅ (PyStr.readlines ddata) = ([], Returns label_dict) ∧
    LoadLabelMaps fs (num_classes FLAGS) (labelmap FLAGS) (dict FLAGS)
      = ([], Returns (PyStr.rstrip <$> PyStr.readlines data, label_dict)) ∧
    idx ∈ top_k scores (n FLAGS) ∧
    PyStr.readlines data !! idx = Some raw ∧
    scores !! idx = Some score ∧
    line = PyFormat.format_line idx (PyStr.rstrip raw)
             (default "unknown" (label_dict !! PyStr.rstrip raw)) score.
Proof.
  intros Hin.
  apply main_printed_inv in Hin
    as (scores & lm & d & idx & mid & score & Hi & Hload & Hidx & Hmid & Hs & ->).
  pose proof Hload as Hinv.
  apply LoadLabelMaps_returns_inv in Hinv
    as (data & ddata & Hl & _ & Hd & _ & Hloop & -> & _).
  apply list_lookup_fmap_Some in Hmid as (raw & -> & Hraw).
  by exists scores, data, ddata, d, idx, raw, score.
Qed.

End Lines.

(** C5.  For every line the program prints there are a class index, its
    mid and the dictionary loaded from dict.csv such that the name on
    the line is the dictionary's value for the mid when the mid is a
    key, and the string [unknown] when it is not. *)
Theorem display_name_from_dict_or_unknown
    (lib : Library) (fs : gmap string string) (FLAGS : Flags) {sorter : Argsort}
    (line : string) :
  line ∈ printed (events (main lib fs FLAGS)) →
  ∃ (scores : list Q) (ddata : string) (lm : list string)
    (label_dict : gmap string string) (idx : nat)
    (mid display_name : string) (score : Q),
    infer lib fs FLAGS = ([EvSessRun], Returns scores) ∧
    fs !! dict FLAGS = Some ddata ∧
    dict_loop ∅ (PyStr.readlines ddata) = ([], Returns label_dict) ∧
    LoadLabelMaps fs (num_classes FLAGS) (labelmap FLAGS) (dict FLAGS)
      = ([], Returns (lm, label_dict)) ∧
    idx ∈ top_k scores (n FLAGS) ∧
    lm !! idx = Some mid ∧
    scores !! idx = Some score ∧
    line = PyFormat.format_line idx mid display_name score ∧
    (label_dict !! mid = None → display_name = "unknown") ∧
    (∀ name, label_dict !! mid = Some name → display_name = name).
Proof.
  intros Hin.
  apply main_line_inv in Hin
    as (scores & data & ddata & d & idx & raw & score
        & Hi & Hl & Hd & Hloop & Hload & Hidx & Hraw & Hs & ->).
  exists scores, ddata, (PyStr.rstrip <$> PyStr.readlines data), d, idx,
    (PyStr.rstrip raw), (default "unknown" (d !! PyStr.rstrip raw)), score.
  split_and!; try done.
  - by rewrite list_lookup_fmap, Hraw.
  - by intros ->.
  - by intros name ->.
Qed.

(** C5, witness: in the demo run [/m/0jbk] is a key of dict.csv and
    [/m/04rky] is not. *)
Lemma display_name_from_dict_or_unknown_witness :
  let out :=
    printed (events (main (Demo.lib Demo.scores3) Demo.fs_full (Demo.flags 3 2))) in
  out = ["1: /m/0jbk - animal (score = 0.94)";
         "2: /m/04rky - unknown (score = 0.92)"] ∧
  ∃ (scores : list Q) (ddata : string) (lm : list string)
    (label_dict : gmap string string) (idx : nat)
    (mid display_name : string) (score : Q),
    infer (Demo.lib Demo.scores3) Demo.fs_full (Demo.flags 3 2)
      = ([EvSessRun], Returns scores) ∧
    Demo.fs_full !! "dict.csv" = Some ddata ∧
    dict_loop ∅ (PyStr.readlines ddata) = ([], Returns label_dict) ∧
    LoadLabelMaps Demo.fs_full 3 "data/2016_08/labelmap.txt" "dict.csv"
      = ([], Returns (lm, label_dict)) ∧
    idx ∈ top_k scores 2 ∧
    lm !! idx = Some mid ∧
    scores !! idx = Some score ∧
    "2: /m/04rky - unknown (score = 0.92)"
      = PyFormat.format_line idx mid display_name score ∧
    (label_dict !! mid = None → display_name = "unknown") ∧
    (∀ name, label_dict !! mid = Some name → display_name = name).
Proof.
  split; [reflexivity|].
  apply (display_name_from_dict_or_unknown
           (Demo.lib Demo.scores3) Demo.fs_full (Demo.flags 3 2)).
  vm_compute. apply list_elem_of_further, list_elem_of_here.
Defined.

(** C6.  For every line the program prints, with class index [idx], the
    mid on the line is line number [idx], counted from zero, of the
    label-map file, stripped of its trailing whitespace and of nothing
    else; the same [idx] is the position of the printed score in the
    score vector. *)
Theorem printed_mid_is_label_map_line
    (lib : Library) (fs : gmap string string) (FLAGS : Flags) {sorter : Argsort}
    (line : string) :
  line ∈ printed (events (main lib fs FLAGS)) →
  ∃ (scores : list Q) (data : string) (idx : nat)
    (raw mid ws display_name : string) (score : Q),
    infer lib fs FLAGS = ([EvSessRun], Returns scores) ∧
    fs !! labelmap FLAGS = Some data ∧
    idx ∈ top_k scores (n FLAGS) ∧
    PyStr.readlines data !! idx = Some raw ∧
    raw = mid +:+ ws ∧
    PyStr.all_chars PyStr.is_space ws = true ∧
    (∀ t c, mid = t +:+ String c "" → PyStr.is_space c = false) ∧
    scores !! idx = Some score ∧
    line = PyFormat.format_line idx mid display_name score.
Proof.
  intros Hin.
  apply main_line_inv in Hin
    as (scores & data & ddata & d & idx & raw & score
        & Hi & Hl & Hd & Hloop & Hload & Hidx & Hraw & Hs & ->).
  destruct (rstrip_by_suffix PyStr.is_space raw) as (ws & Hsplit & Hws).
  exists scores, data, idx, raw, (PyStr.rstrip raw), ws,
    (default "unknown" (d !! PyStr.rstrip raw)), score.
  split_and!; try done.
  intros t c. apply rstrip_by_last.
Qed.

(** C6, witness: in the demo run index 1 prints [/m/0jbk], the second
    line of the label map. *)
Lemma printed_mid_is_label_map_line_witness :
  "1: /m/0jbk - animal (score = 0.94)"
    ∈ printed (events (main (Demo.lib Demo.scores3) Demo.fs_full (Demo.flags 3 2))) ∧
  ∃ (scores : list Q) (data : string) (idx : nat)
    (raw mid ws display_name : string) (score : Q),
    infer (Demo.lib Demo.scores3) Demo.fs_full (Demo.flags 3 2)
      = ([EvSessRun], Returns scores) ∧
    Demo.fs_full !! "data/2016_08/labelmap.txt" = Some data ∧
    idx ∈ top_k scores 2 ∧
    PyStr.readlines data !! idx = Some raw ∧
    raw = mid +:+ ws ∧
    PyStr.all_chars PyStr.is_space ws = true ∧
    (∀ t c, mid = t +:+ String c "" → PyStr.is_space c = false) ∧
    scores !! idx = Some score ∧
    "1: /m/0jbk - animal (score = 0.94)"
      = PyFormat.format_line idx mid display_name score.
Proof.
  assert ("1: /m/0jbk - animal (score = 0.94)"
            ∈ printed (events (main (Demo.lib Demo.scores3) Demo.fs_full
                                 (Demo.flags 3 2)))) as Hin.
  { vm_compute. apply list_elem_of_here. }
  split; [exact Hin|].
  exact (printed_mid_is_label_map_line
           (Demo.lib Demo.scores3) Demo.fs_full (Demo.flags 3 2) _ Hin).
Defined.

(** C7.  Every line the program prints is the class index in decimal, a
    colon and a space, the mid, [ - ], the display name, [ (score = ],
    the score with two decimals, and a closing parenthesis. *)
Theorem printed_line_format
    (lib : Library) (fs : gmap string string) (FLAGS : Flags) {sorter : Argsort}
    (line : string) :
  line ∈ printed (events (main lib fs FLAGS)) →
  ∃ (scores : list Q) (lm : list string) (label_dict : gmap string string)
    (idx : nat) (mid display_name value : string) (score : Q),
    infer lib fs FLAGS = ([EvSessRun], Returns scores) ∧
    LoadLabelMaps fs (num_classes FLAGS) (labelmap FLAGS) (dict FLAGS)
      = ([], Returns (lm, label_dict)) ∧
    idx ∈ top_k scores (n FLAGS) ∧
    lm !! idx = Some mid ∧
    display_name = default "unknown" (label_dict !! mid) ∧
    scores !! idx = Some score ∧
    two_decimals score value ∧
    line = pretty idx +:+ ": " +:+ mid +:+ " - " +:+ display_name
             +:+ " (score = " +:+ value +:+ ")".
Proof.
  intros Hin.
  apply main_printed_inv in Hin
    as (scores & lm & d & idx & mid & score & Hi & Hload & Hidx & Hmid & Hs & ->).
  exists scores, lm, d, idx, mid, (default "unknown" (d !! mid)),
    (PyFormat.format_2f score), score.
  split_and!; try done. apply format_2f_two_decimals.
Qed.

(** C7, witness: the first line of the demo run. *)
Lemma printed_line_format_witness :
  "1: /m/0jbk - animal (score = 0.94)"
    ∈ printed (events (main (Demo.lib Demo.scores3) Demo.fs_full (Demo.flags 3 2))) ∧
  ∃ (scores : list Q) (lm : list string) (label_dict : gmap string string)
    (idx : nat) (mid display_name value : string) (score : Q),
    infer (Demo.lib Demo.scores3) Demo.fs_full (Demo.flags 3 2)
      = ([EvSessRun], Returns scores) ∧
    LoadLabelMaps Demo.fs_full 3 "data/2016_08/labelmap.txt" "dict.csv"
      = ([], Returns (lm, label_dict)) ∧
    idx ∈ top_k scores 2 ∧
    lm !! idx = Some mid ∧
    display_name = default "unknown" (label_dict !! mid) ∧
    scores !! idx = Some score ∧
    two_decimals score value ∧
    "1: /m/0jbk - animal (score = 0.94)"
      = pretty idx +:+ ": " +:+ mid +:+ " - " +:+ display_name
          +:+ " (score = " +:+ value +:+ ")".
Proof.
  assert ("1: /m/0jbk - animal (score = 0.94)"
            ∈ printed (events (main (Demo.lib Demo.scores3) Demo.fs_full
                                 (Demo.flags 3 2)))) as Hin.
  { vm_compute. apply list_elem_of_here. }
  split; [exact Hin|].
  exact (printed_line_format
           (Demo.lib Demo.scores3) Demo.fs_full (Demo.flags 3 2) _ Hin).
Defined.

(** ** C8: the reporting stage is a function of four things *)

Lemma LoadLabelMaps_ext (fs1 fs2 : gmap string string) classes l1 l2 d1 d2 :
  fs1 !! l1 = fs2 !! l2 → fs1 !! d1 = fs2 !! d2 →
  result (LoadLabelMaps fs1 classes l1 d1) = result (LoadLabelMaps fs2 classes l2 d2).
Proof.
  intros Hl Hd. unfold LoadLabelMaps, GFile_readlines, GFile_read.
  rewrite Hl, Hd. destruct (fs2 !! l2) as [data|]; [|done]. run_step.
  destruct (decide _); [done|]. destruct (fs2 !! d2) as [ddata|]; [|done].
  run_step. by destruct (dict_loop _ _) as [evs [d|h]].
Qed.

(** C8.  Two runs of the reporting stage on the same score vector, one
    score per class, with the same contents of the label-map file and of
    dict.csv and the same top-N count, print the same lines; paths, the
    rest of the file system and the other flags do not matter. *)
Theorem report_deterministic
    {sorter : Argsort} (fs1 fs2 : gmap string string) (F1 F2 : Flags)
    (scores : list Q) :
  fs1 !! labelmap F1 = fs2 !! labelmap F2 →
  fs1 !! dict F1 = fs2 !! dict F2 →
  n F1 = n F2 →
  Z.of_nat (length scores) = num_classes F1 →
  Z.of_nat (length scores) = num_classes F2 →
  printed (events (report fs1 F1 scores)) = printed (events (report fs2 F2 scores)).
Proof.
  intros Hl Hd Hn Hc1 Hc2.
  pose proof (LoadLabelMaps_ext fs1 fs2 (num_classes F1) _ _ _ _ Hl Hd) as Hres.
  rewrite <-Hc1 in Hres at 2. rewrite Hc2 in Hres.
  destruct (LoadLabelMaps_cases fs1 (num_classes F1) (labelmap F1) (dict F1))
    as [H1|[[msg1 H1]|[H1|[[lm1 dd1] H1]]]]; cbv zeta in H1;
  destruct (LoadLabelMaps_cases fs2 (num_classes F2) (labelmap F2) (dict F2))
    as [H2|[[msg2 H2]|[H2|[[lm2 dd2] H2]]]]; cbv zeta in H2;
  rewrite H1, H2 in Hres; simplify_eq/=;
  rewrite ?(report_halts _ _ _ _ _ H1), ?(report_halts _ _ _ _ _ H2); try done.
  by rewrite (report_returns _ _ _ _ _ H1), (report_returns _ _ _ _ _ H2), Hn.
Qed.

(** C8, witness: the demo files and the same files elsewhere. *)
Lemma report_deterministic_witness :
  Demo.fs_full !! "data/2016_08/labelmap.txt" = Demo.fs_moved !! "labels" ∧
  Demo.fs_full !! "dict.csv" = Demo.fs_moved !! "names" ∧
  printed (events (report Demo.fs_full (Demo.flags 3 2) Demo.scores3))
  = printed (events (report Demo.fs_moved Demo.flags_moved Demo.scores3)).
Proof.
  split; [reflexivity|]. split; [reflexivity|].
  apply (report_deterministic Demo.fs_full Demo.fs_moved
           (Demo.flags 3 2) Demo.flags_moved Demo.scores3); reflexivity.
Defined.

(** ** C9: the normalisation in [PreprocessImage] *)

(** C9.  For an image that is found and decodes, [PreprocessImage]
    returns the resized pixel values mapped one by one through
    [tf.sub(tf.mul(v, 1.0/127.5), 1.0)].  In exact arithmetic
    [v * (1/127.5) - 1] is [v/127.5 - 1]; the binary32 result is within
    [2^-21] of it on [0, 255], stays in [-1, 1], sends 0 to -1 and 255
    to 1 exactly, and the value sent to 0 is 127.5, not 128. *)
Theorem PreprocessImage_normalizes
    (lib : Library) (fs : gmap string string) (FLAGS : Flags)
    (path jpeg : string) (pixels : list Q) :
  fs !! path = Some jpeg →
  decode_jpeg lib jpeg = Some pixels →
  PreprocessImage lib fs FLAGS path
    = ([], Returns (Some (normalize <$> crop_and_resize lib pixels (image_size FLAGS)))) ∧
  (∀ v, v * (1 / 127.5) - 1 == v / 127.5 - 1)%Q ∧
  (∀ v, 0 <= v <= 255 → Qabs (normalize v - (v / 127.5 - 1)) <= 1 # 2097152)%Q ∧
  (∀ v, 0 <= v <= 255 → -1 <= normalize v <= 1)%Q ∧
  (normalize 0 == -1)%Q ∧
  (normalize 255 == 1)%Q ∧
  (normalize 127.5 == 0)%Q ∧
  ¬ (normalize 128 == 0)%Q.
Proof.
  intros Hp Hd. split_and!.
  - by rewrite (PreprocessImage_found lib fs FLAGS path jpeg Hp), Hd.
  - intros v. field.
  - apply normalize_error.
  - apply normalize_range.
  - vm_compute. reflexivity.
  - vm_compute. reflexivity.
  - vm_compute. reflexivity.
  - vm_compute. discriminate.
Qed.

(** C9, witness: the three pixel values of the demo image. *)
Lemma PreprocessImage_normalizes_witness :
  Demo.fs_full !! "/tmp/cat.jpg" = Some "jpeg" ∧
  decode_jpeg (Demo.lib Demo.scores3) "jpeg" = Some [0; 255; 51]%Q ∧
  PreprocessImage (Demo.lib Demo.scores3) Demo.fs_full (Demo.flags 3 2) "/tmp/cat.jpg"
  = ([], Returns (Some (normalize <$> [0; 255; 51]%Q))).
Proof.
  split; [reflexivity|]. split; [reflexivity|].
  apply (PreprocessImage_normalizes (Demo.lib Demo.scores3) Demo.fs_full
           (Demo.flags 3 2) "/tmp/cat.jpg" "jpeg" [0; 255; 51]%Q); reflexivity.
Defined.

(** ** C10: dict.csv lines without a comma *)

(** C10, counterexample.  dict.csv has a line without a comma, yet
    [LoadLabelMaps] does not raise [IndexError]: the label map has three
    lines for four classes, so the function has logged and exited before
    it opens dict.csv. *)
Lemma LoadLabelMaps_no_comma_no_IndexError :
  ¬ (Exists (λ line, ¬ has_comma line)
       (PyStr.readlines (PyStr.unlines ["/m/01yrx cat"])) →
     result (LoadLabelMaps Demo.fs_bad_dict 4
               "data/2016_08/labelmap.txt" "dict.csv")
     = Halts (Uncaught IndexError)).
Proof.
  intros Hraise. assert (Exists (λ line, ¬ has_comma line)
    (PyStr.readlines (PyStr.unlines ["/m/01yrx cat"]))) as Hex.
  { apply Exists_cons_hd. vm_compute. discriminate. }
  specialize (Hraise Hex). vm_compute in Hraise. done.
Qed.

(** C10, amended.  When the label-map file can be read and has
    [num_classes] lines, so that the dict loop is reached, a dict.csv
    line without a comma makes [LoadLabelMaps] raise an uncaught
    [IndexError], with nothing logged: [split(',', 1)] gives a single
    word and [words[1]] is out of range.  Whenever [LoadLabelMaps]
    returns, dict.csv was readable and every line of it has a comma. *)
Theorem LoadLabelMaps_comma_precondition
    (fs : gmap string string) (classes : Z) (labelmap_path dict_path : string) :
  let r := LoadLabelMaps fs classes labelmap_path dict_path in
  (∀ data ddata,
     fs !! labelmap_path = Some data →
     Z.of_nat (length (PyStr.readlines data)) = classes →
     fs !! dict_path = Some ddata →
     Exists (λ line, ¬ has_comma line) (PyStr.readlines ddata) →
     r = ([], Halts (Uncaught IndexError))) ∧
  (∀ line, ¬ has_comma line → PyStr.split_comma_1 line = [line]) ∧
  (∀ v, result r = Returns v →
     ∃ ddata, fs !! dict_path = Some ddata ∧
       Forall has_comma (PyStr.readlines ddata)).
Proof.
  intros r. split_and!.
  - intros data ddata Hl Heq Hd Hex. by eapply LoadLabelMaps_bad_dict.
  - intros line Hc. apply split_comma_1_without.
    unfold has_comma in Hc. by destruct (PyStr.contains _ _).
  - intros [lm d] Hret. destruct r as [evs res] eqn:Hr. simpl in Hret. subst res.
    apply LoadLabelMaps_returns_inv in Hr
      as (data & ddata & _ & _ & Hd & Hall & _). eauto.
Qed.

(** C10, witness: the demo label map with the comma-less dict.csv. *)
Lemma LoadLabelMaps_comma_precondition_witness :
  Demo.fs_bad_dict !! "data/2016_08/labelmap.txt" = Some Demo.labelmap_txt ∧
  Z.of_nat (length (PyStr.readlines Demo.labelmap_txt)) = 3%Z ∧
  LoadLabelMaps Demo.fs_bad_dict 3 "data/2016_08/labelmap.txt" "dict.csv"
  = ([], Halts (Uncaught IndexError)).
Proof.
  split; [reflexivity|]. split; [reflexivity|].
  destruct (LoadLabelMaps_comma_precondition Demo.fs_bad_dict 3
              "data/2016_08/labelmap.txt" "dict.csv") as (Hraise & _ & _).
  apply (Hraise Demo.labelmap_txt (PyStr.unlines ["/m/01yrx cat"]));
    [reflexivity..|].
  apply Exists_cons_hd. vm_compute. discriminate.
Defined.

(** * Part IV: further properties *)

(** ** [readlines] *)









(** ** [rstrip], [strip] and [split] *)

Lemma rstrip_by_all p ws : PyStr.all_chars p ws = true → PyStr.rstrip_by p ws = "".
Proof.
  induction ws as [|c ws IH]; simpl; [done|].
  intros [Hc Hws]%andb_true_iff. by rewrite (IH Hws), Hc.
Qed.

Lemma rstrip_by_cons_ne p c s :
  PyStr.rstrip_by p s ≠ "" → PyStr.rstrip_by p (String c s) = String c (PyStr.rstrip_by p s).
Proof. simpl. by destruct (PyStr.rstrip_by p s). Qed.

(** What [rstrip_by] returns is the only way to cut the string into a
    part that does not end in a stripped character and stripped
    characters. *)
Lemma rstrip_by_unique p t ws :
  PyStr.all_chars p ws = true →
  (∀ u c, t = u +:+ String c "" → p c = false) →
  PyStr.rstrip_by p (t +:+ ws) = t.
Proof.
  intros Hws. induction t as [|c t IH]; intros Hlast.
  - by apply rstrip_by_all.
  - change (String c t +:+ ws) with (String c (t +:+ ws)).
    assert (PyStr.rstrip_by p (t +:+ ws) = t) as Ht.
    { apply IH. intros u c' ->. by apply (Hlast (String c u) c'). }
    destruct t as [|c' t].
    + simpl. change ("" +:+ ws) with ws in *. rewrite Ht.
      by rewrite (Hlast "" c eq_refl).
    + rewrite rstrip_by_cons_ne; rewrite Ht; done.
Qed.

Lemma rstrip_by_head p c s : p c = false → ∃ r, PyStr.rstrip_by p (String c s) = String c r.
Proof.
  intros Hc. simpl. destruct (PyStr.rstrip_by p s); [|by eauto].
  rewrite Hc. by eauto.
Qed.

Lemma lstrip_by_prefix p s :
  ∃ l, s = l +:+ PyStr.lstrip_by p s ∧ PyStr.all_chars p l = true.
Proof.
  induction s as [|c s (l & Hs & Hl)]; simpl; [by exists ""|].
  destruct (p c) eqn:Hc.
  - exists (String c l). split; [|by simpl; rewrite Hc].
    change (String c s = String c (l +:+ PyStr.lstrip_by p s)). by rewrite <-Hs.
  - by exists "".
Qed.

Lemma lstrip_by_head p s c t : PyStr.lstrip_by p s = String c t → p c = false.
Proof.
  induction s as [|c0 s IH]; simpl; [done|].
  destruct (p c0) eqn:Hc0; [done|]. by intros [= <- _].
Qed.

Lemma string_app_assoc (a b c : string) : (a +:+ b) +:+ c = a +:+ (b +:+ c).
Proof.
  induction a as [|x a IH]; [done|].
  change (String x ((a +:+ b) +:+ c) = String x (a +:+ (b +:+ c))). by rewrite IH.
Qed.

(** [strip_by] removes stripped characters from both ends, and only
    there. *)
Lemma strip_by_spec p s :
  ∃ l r, s = l +:+ PyStr.strip_by p s +:+ r ∧
    PyStr.all_chars p l = true ∧ PyStr.all_chars p r = true ∧
    stripped p (PyStr.strip_by p s).
Proof.
  unfold PyStr.strip_by.
  destruct (lstrip_by_prefix p s) as (l & Hs & Hl).
  destruct (rstrip_by_suffix p (PyStr.lstrip_by p s)) as (r & Hm & Hr).
  exists l, r. split_and!; [|done|done|split].
  - by rewrite <-Hm.
  - intros c t Ht. destruct (PyStr.lstrip_by p s) as [|c0 m] eqn:Hls; [done|].
    pose proof (lstrip_by_head _ _ _ _ Hls) as Hc0.
    destruct (rstrip_by_head p c0 m Hc0) as (r' & Hr'). rewrite Hr' in Ht.
    by injection Ht as <- _.
  - intros t c. apply rstrip_by_last.
Qed.

Lemma contains_app c a b :
  PyStr.contains c (a +:+ b) = PyStr.contains c a || PyStr.contains c b.
Proof.
  induction a as [|x a IH]; [done|].
  change (String x a +:+ b) with (String x (a +:+ b)). simpl.
  by rewrite IH, orb_assoc.
Qed.

(** [split(',', 1)] cuts at the first comma and nowhere else. *)
Lemma split_comma_1_iff s w0 w1 :
  PyStr.split_comma_1 s = [w0; w1] ↔
  s = w0 +:+ String PyStr.comma w1 ∧ PyStr.contains PyStr.comma w0 = false.
Proof.
  revert w0. induction s as [|c s IH]; intros w0; simpl.
  - split; [done|]. intros [H _]. by destruct w0.
  - destruct (Ascii.eqb c PyStr.comma) eqn:Hc.
    + apply Ascii.eqb_eq in Hc as ->. split.
      * by intros [= <- <-].
      * intros [H Hw0]. destruct w0 as [|c0 w0]; simpl in *.
        -- by injection H as ->.
        -- injection H as <- _. by rewrite Ascii.eqb_refl in Hw0.
    + split.
      * destruct (PyStr.split_comma_1 s) as [|w ws] eqn:Hsp; [done|].
        intros [= <- ->]. destruct (proj1 (IH w) eq_refl) as [-> Hw].
        split; [done|]. simpl. by rewrite Hc.
      * intros [H Hw0]. destruct w0 as [|c0 w0]; simpl in *.
        -- injection H as -> _. by rewrite Ascii.eqb_refl in Hc.
        -- injection H as <- ->. apply orb_false_iff in Hw0 as [_ Hw0].
           by rewrite (proj2 (IH w0) (conj eq_refl Hw0)).
Qed.

(** ** The dict loop: which line defines a name *)

Lemma dict_step_words d line k v :
  dict_words line = [k; v] → dict_step d line = ([], Returns (<[k := v]> d)).
Proof. unfold dict_words, dict_step. by intros ->. Qed.

Lemma dict_step_returns_inv d line evs d' :
  dict_step d line = (evs, Returns d') →
  ∃ k v, dict_words line = [k; v] ∧ d' = <[k := v]> d ∧ evs = [].
Proof.
  destruct (decide (has_comma line)) as [Hc|Hc].
  - destruct (split_comma_1_with _ Hc) as (w0 & w1 & Hs).
    unfold dict_step, dict_words. rewrite Hs. simpl. intros [= <- <-]. eauto.
  - by rewrite (dict_step_no_comma d line Hc).
Qed.

Lemma dict_loop_cons_inv d line lines evs d' :
  dict_loop d (line :: lines) = (evs, Returns d') →
  ∃ k v, dict_words line = [k; v] ∧
    dict_loop (<[k := v]> d) lines = (evs, Returns d').
Proof.
  simpl. destruct (dict_step d line) as [e [d1|h]] eqn:Hstep.
  - destruct (dict_step_returns_inv _ _ _ _ Hstep) as (k & v & Hw & -> & ->).
    rewrite (bind_returns _ _ _ _ eq_refl). simpl. intros Hloop.
    exists k, v. split; [done|]. by destruct (dict_loop _ lines).
  - by rewrite (bind_halts _ _ _ _ eq_refl).
Qed.

Lemma other_key_words key line k v :
  dict_words line = [k; v] → other_key key line ↔ k ≠ key.
Proof.
  intros Hw. unfold other_key. rewrite Hw. split.
  - intros H ->. by apply (H v).
  - intros Hne value [= ? _]. done.
Qed.

Lemma dict_loop_lookup_Some lines : ∀ d0 evs d key value,
  dict_loop d0 lines = (evs, Returns d) →
  d !! key = Some value ↔
  (∃ before line after,
     lines = before ++ line :: after ∧ dict_words line = [key; value] ∧
     Forall (other_key key) after) ∨
  (Forall (other_key key) lines ∧ d0 !! key = Some value).
Proof.
  induction lines as [|line lines IH]; intros d0 evs d key value Hloop.
  - injection Hloop as _ <-. split.
    + intros Hd. right. by split.
    + intros [(before & l & after & Hl & _)|[_ Hd]]; [by destruct before|done].
  - apply dict_loop_cons_inv in Hloop as (k & v & Hw & Hloop).
    rewrite (IH _ _ _ key value Hloop). clear IH Hloop. split.
    + intros [(before & l & after & -> & Hl & Hafter)|[Hall Hd]].
      * left. by exists (line :: before), l, after.
      * apply lookup_insert_Some in Hd as [[-> ->]|[Hne Hd]].
        -- left. by exists [], line, lines.
        -- right. split; [|done]. constructor; [|done].
           by apply (other_key_words _ _ _ _ Hw).
    + intros [(before & l & after & Hl & Hlw & Hafter)|[Hall Hd]].
      * destruct before as [|b before]; simpl in Hl.
        -- injection Hl as <- <-. right. split; [done|].
           rewrite Hw in Hlw. injection Hlw as -> ->. by rewrite lookup_insert_eq.
        -- injection Hl as <- ->. left. by exists before, l, after.
      * apply Forall_cons in Hall as [Hline Hall]. right. split; [done|].
        apply (other_key_words _ _ _ _ Hw) in Hline.
        by rewrite lookup_insert_ne.
Qed.

Lemma dict_loop_lookup_None lines : ∀ d0 evs d key,
  dict_loop d0 lines = (evs, Returns d) →
  d !! key = None ↔ Forall (other_key key) lines ∧ d0 !! key = None.
Proof.
  induction lines as [|line lines IH]; intros d0 evs d key Hloop.
  - injection Hloop as _ <-. split; [by split|by intros [_ ?]].
  - apply dict_loop_cons_inv in Hloop as (k & v & Hw & Hloop).
    rewrite (IH _ _ _ key Hloop), lookup_insert_None, Forall_cons.
    rewrite (other_key_words _ _ _ _ Hw). tauto.
Qed.

Lemma contains_strip_by p c s :
  PyStr.contains c s = false → PyStr.contains c (PyStr.strip_by p s) = false.
Proof.
  destruct (strip_by_spec p s) as (l & r & Hs & _). intros Hc.
  rewrite Hs, !contains_app in Hc.
  by apply orb_false_iff in Hc as [_ [Hc _]%orb_false_iff].
Qed.

Lemma dict_words_two line k v :
  dict_words line = [k; v] →
  ∃ w0 w1, line = w0 +:+ String PyStr.comma w1 ∧
    PyStr.contains PyStr.comma w0 = false ∧
    k = PyStr.strip_by PyStr.in_dict_strip_set w0 ∧
    v = PyStr.strip_by PyStr.in_dict_strip_set w1.
Proof.
  unfold dict_words. intros Hw.
  destruct (PyStr.split_comma_1 line) as [|w0 [|w1 [|? ?]]] eqn:Hs; try done.
  injection Hw as <- <-. apply split_comma_1_iff in Hs as [-> Hw0].
  by exists w0, w1.
Qed.

Lemma last_char_app u c : last_char (u +:+ String c "") = Some c.
Proof.
  induction u as [|x u IH]; [done|].
  change (String x u +:+ String c "") with (String x (u +:+ String c "")).
  simpl. rewrite IH. by destruct u.
Qed.

(** ** More on the top-N slice *)

Section TopKMore.

Context {sorter : Argsort}.

Implicit Types (scores : list Q) (n : Z).

Lemma slice_start_neg len n :
  (n < 0)%Z → slice_start len n = Nat.min (Z.to_nat (- n)) len.
Proof. intros Hn. unfold slice_start. destruct (decide _); lia. Qed.

(** A negative count drops that many of the lowest scores. *)
Lemma top_k_neg scores n :
  (n < 0)%Z → top_k scores n = reverse (drop (Z.to_nat (- n)) (argsort scores)).
Proof.
  intros Hn. rewrite top_k_unfold, slice_start_neg by done. f_equal.
  destruct (decide (Z.to_nat (- n) ≤ length scores)%nat) as [Hle|Hgt].
  - by rewrite Nat.min_l.
  - rewrite Nat.min_r by lia.
    rewrite !drop_ge; [done|rewrite argsort_length; lia..].
Qed.

Lemma top_k_neg_length scores n :
  (n < 0)%Z → length (top_k scores n) = (length scores - Z.to_nat (- n))%nat.
Proof. intros Hn. rewrite top_k_length, slice_start_neg by done. lia. Qed.

(** A larger count only adds indices at the end. *)
Lemma top_k_prefix_mono scores n m :
  (1 ≤ n ≤ m)%Z → top_k scores n `prefix_of` top_k scores m.
Proof.
  intros Hnm. rewrite !top_k_unfold, !slice_start_pos by lia.
  set (a := (length scores - Z.to_nat m)%nat).
  set (b := (length scores - Z.to_nat n)%nat).
  assert (a ≤ b)%nat as Hab by lia.
  rewrite <-(take_drop (b - a) (drop a (argsort scores))), drop_drop, reverse_app.
  replace (a + (b - a))%nat with b by lia. by eexists.
Qed.


End TopKMore.

(** ** More on the reporting loop *)

Section ReportLoopMore.

Context (labelmap : list string) (label_dict : gmap string string).
Context (scores : list Q).

Local Abbreviation line_at := (line_of labelmap label_dict scores).
Local Abbreviation got_through := (reported labelmap label_dict scores).


Lemma reported_eq_iff idxs :
  got_through idxs = idxs ↔ Forall (λ idx, is_Some (line_at idx)) idxs.
Proof.
  split.
  - intros <-. apply reported_lines.
  - induction 1 as [|idx idxs [line Hline] _ IH]; simpl; [done|].
    by rewrite Hline, IH.
Qed.

Lemma reported_prefix_mono idxs1 idxs2 :
  idxs1 `prefix_of` idxs2 → got_through idxs1 `prefix_of` got_through idxs2.
Proof.
  intros [k ->]. induction idxs1 as [|idx idxs1 IH]; simpl.
  - apply prefix_nil.
  - destruct (line_at idx); [|done]. by apply prefix_cons.
Qed.

Lemma omap_prefix {A B} (f : A → option B) (l1 l2 : list A) :
  l1 `prefix_of` l2 → omap f l1 `prefix_of` omap f l2.
Proof. intros [k ->]. rewrite omap_app. by eexists. Qed.

End ReportLoopMore.

(** ** More on [LoadLabelMaps], [report] and [main] *)

Lemma logged_fmap_EvPrint (lines : list string) : logged (EvPrint <$> lines) = [].
Proof. induction lines as [|l lines IH]; [done|]. simpl. apply IH. Qed.

Lemma not_elem_of_fmap_EvPrint (lines : list string) : EvSessRun ∉ EvPrint <$> lines.
Proof. intros (l & Hl & _)%list_elem_of_fmap. discriminate. Qed.

Section LoadMore.

Context (fs : gmap string string) (classes : Z) (labelmap_path dict_path : string).

Local Abbreviation load := (LoadLabelMaps fs classes labelmap_path dict_path).

(** The three ways [LoadLabelMaps] stops the run, with their causes. *)
Lemma LoadLabelMaps_halts_inv evs h :
  load = (evs, Halts h) →
  (h = Uncaught NotFoundError ∧ evs = [] ∧
   (fs !! labelmap_path = None ∨ fs !! dict_path = None)) ∨
  (h = SysExit 1 ∧
   ∃ data, fs !! labelmap_path = Some data ∧
     Z.of_nat (length (PyStr.readlines data)) ≠ classes ∧
     evs = [EvLogFatal (label_map_message labelmap_path
                          (length (PyStr.readlines data)) classes)]) ∨
  (h = Uncaught IndexError ∧ evs = [] ∧
   ∃ data ddata, fs !! labelmap_path = Some data ∧
     Z.of_nat (length (PyStr.readlines data)) = classes ∧
     fs !! dict_path = Some ddata ∧
     Exists (λ line, ¬ has_comma line) (PyStr.readlines ddata)).
Proof.
  intros Hload.
  destruct (fs !! labelmap_path) as [data|] eqn:Hl.
  2: { rewrite LoadLabelMaps_no_labelmap in Hload by done.
       injection Hload as <- <-. left. by eauto. }
  destruct (decide (Z.of_nat (length (PyStr.readlines data)) = classes)) as [Heq|Hne].
  2: { rewrite (LoadLabelMaps_mismatch _ _ _ _ data) in Hload by done.
       injection Hload as <- <-. right; left. split; [done|]. by exists data. }
  destruct (fs !! dict_path) as [ddata|] eqn:Hd.
  2: { rewrite (LoadLabelMaps_no_dict _ _ _ _ data) in Hload by done.
       injection Hload as <- <-. left. by eauto. }
  destruct (decide (Forall has_comma (PyStr.readlines ddata))) as [Hall|Hex].
  - destruct (LoadLabelMaps_good fs classes labelmap_path dict_path
                data ddata Hl Heq Hd Hall) as (d & _ & Hgood).
    by rewrite Hgood in Hload.
  - apply not_Forall_Exists in Hex; [|apply _].
    rewrite (LoadLabelMaps_bad_dict _ _ _ _ data ddata) in Hload by done.
    injection Hload as <- <-. right; right. split_and!; [done..|]. by exists data, ddata.
Qed.


End LoadMore.

Section MainMore.

Context (lib : Library) (fs : gmap string string) (FLAGS : Flags).
Context {sorter : Argsort}.

Local Abbreviation load :=
  (LoadLabelMaps fs (num_classes FLAGS) (labelmap FLAGS) (dict FLAGS)).

Lemma report_run scores lm d :
  load = ([], Returns (lm, d)) →
  report fs FLAGS scores =
  (EvPrint <$> omap (line_of lm d scores)
                 (reported lm d scores (top_k scores (n FLAGS))),
   if decide (reported lm d scores (top_k scores (n FLAGS)) = top_k scores (n FLAGS))
   then Returns () else Halts (Uncaught IndexError)).
Proof.
  intros Hload. rewrite (report_returns fs FLAGS scores lm d Hload).
  rewrite <-for_each_report_events, <-for_each_report_result.
  by destruct (for_each _ _).
Qed.


Lemma report_cases scores :
  (∃ evs h, load = (evs, Halts h) ∧ report fs FLAGS scores = (evs, Halts h) ∧
     printed evs = [] ∧ EvSessRun ∉ evs) ∨
  (∃ lm d, load = ([], Returns (lm, d)) ∧
     report fs FLAGS scores =
     (EvPrint <$> omap (line_of lm d scores)
                    (reported lm d scores (top_k scores (n FLAGS))),
      if decide (reported lm d scores (top_k scores (n FLAGS)) = top_k scores (n FLAGS))
      then Returns () else Halts (Uncaught IndexError))).
Proof.
  destruct load as [evs [[lm d]|h]] eqn:Hload.
  - right. exists lm, d.
    pose proof (LoadLabelMaps_returns_inv _ _ _ _ _ _ _ Hload)
      as (_ & _ & _ & _ & _ & _ & _ & _ & ->).
    split; [done|]. by apply report_run.
  - left. exists evs, h. split; [done|]. split; [by apply report_halts|].
    apply LoadLabelMaps_halts_inv in Hload
      as [(_ & -> & _)|[(_ & data & _ & _ & ->)|(_ & -> & _)]]; (split; [done|]).
    all: rewrite ?elem_of_cons, elem_of_nil; intuition discriminate.
Qed.

(** The events of [main] after inference has returned. *)
Lemma main_after_infer scores :
  infer lib fs FLAGS = ([EvSessRun], Returns scores) →
  main lib fs FLAGS =
    (EvSessRun :: events (report fs FLAGS scores), result (report fs FLAGS scores)).
Proof. intros Hi. by rewrite (main_infer_returns _ _ _ _ _ Hi). Qed.

End MainMore.

Lemma LoadLabelMaps_equal_logs_nothing fs classes labelmap_path dict_path data :
  fs !! labelmap_path = Some data →
  Z.of_nat (length (PyStr.readlines data)) = classes →
  logged (events (LoadLabelMaps fs classes labelmap_path dict_path)) = [].
Proof.
  intros Hl Heq.
  destruct (LoadLabelMaps fs classes labelmap_path dict_path) as [evs [[lm d]|h]] eqn:Hload.
  - by apply LoadLabelMaps_returns_inv in Hload as (_ & _ & _ & _ & _ & _ & _ & _ & ->).
  - apply LoadLabelMaps_halts_inv in Hload
      as [(_ & -> & _)|[(_ & data' & Hl' & Hne & _)|(_ & -> & _)]]; [done| |done].
    rewrite Hl in Hl'. by injection Hl' as <-.
Qed.

(** ** Rounding is monotone *)

(** What [round_half_even] returns: an integer within one half, and an
    even one at a tie. *)
Lemma round_half_even_spec q :
  let N := round_half_even q in
  (inject_Z N - (1 # 2) <= q <= inject_Z N + (1 # 2))%Q ∧
  ((q == inject_Z N - (1 # 2) ∨ q == inject_Z N + (1 # 2))%Q → Z.even N = true).
Proof.
  unfold round_half_even.
  pose proof (Qfloor_le q) as Hlo. pose proof (Qlt_floor q) as Hhi.
  rewrite inject_Z_plus in Hhi. change (inject_Z 1) with 1%Q in Hhi.
  destruct (Qcompare_spec (q - inject_Z (Qfloor q)) (1 # 2)) as [He|Hl|Hg]; cbv zeta.
  - destruct (Z.even (Qfloor q)) eqn:Hev.
    + split; [lra|done].
    + rewrite inject_Z_plus. change (inject_Z 1) with 1%Q. split; [lra|].
      intros _. by rewrite Z.even_add, Hev.
  - split; [lra|]. intros [H|H]; lra.
  - rewrite inject_Z_plus. change (inject_Z 1) with 1%Q. split; [lra|].
    intros [H|H]; lra.
Qed.

Lemma round_half_even_mono x y :
  (x <= y)%Q → (round_half_even x ≤ round_half_even y)%Z.
Proof.
  intros Hxy.
  destruct (round_half_even_spec x) as [[Hxl Hxu] Hxe].
  destruct (round_half_even_spec y) as [[Hyl Hyu] Hye].
  set (N := round_half_even x) in *. set (M := round_half_even y) in *.
  destruct (decide (N ≤ M)%Z) as [|Hgt]; [done|]. exfalso.
  assert (M + 1 ≤ N)%Z as Hle by lia.
  rewrite Zle_Qle, inject_Z_plus in Hle. change (inject_Z 1) with 1%Q in Hle.
  assert (Z.even N = true) as HN by (apply Hxe; left; lra).
  assert (Z.even M = true) as HM by (apply Hye; right; lra).
  assert (inject_Z N == inject_Z M + 1)%Q as Heq by lra.
  assert (N = M + 1)%Z as HNM.
  { apply inject_Z_injective. rewrite inject_Z_plus. by change (inject_Z 1) with 1%Q. }
  rewrite HNM, Z.even_add, HM in HN. done.
Qed.

Lemma round_half_even_unique q N :
  (inject_Z N - (1 # 2) <= q <= inject_Z N + (1 # 2))%Q →
  ((q == inject_Z N - (1 # 2) ∨ q == inject_Z N + (1 # 2))%Q → Z.even N = true) →
  round_half_even q = N.
Proof.
  intros [Hl Hu] He.
  destruct (round_half_even_spec q) as [[Hl' Hu'] He'].
  set (M := round_half_even q) in *.
  assert (N ≤ M + 1 ∧ M ≤ N + 1)%Z as [H1 H2].
  { split; rewrite Zle_Qle, inject_Z_plus; change (inject_Z 1) with 1%Q; lra. }
  destruct (decide (M = N)) as [|Hne]; [done|]. exfalso.
  assert (N = M + 1 ∨ M = N + 1)%Z as [HM|HM] by lia.
  - assert (inject_Z N == inject_Z M + 1)%Q as HMq.
    { rewrite HM, inject_Z_plus. by change (inject_Z 1) with 1%Q. }
    assert (Z.even N = true) as HN by (apply He; left; lra).
    assert (Z.even M = true) as HM' by (apply He'; right; lra).
    rewrite HM, Z.even_add, HM' in HN. done.
  - assert (inject_Z M == inject_Z N + 1)%Q as HMq.
    { rewrite HM, inject_Z_plus. by change (inject_Z 1) with 1%Q. }
    assert (Z.even N = true) as HN by (apply He; right; lra).
    assert (Z.even M = true) as HM' by (apply He'; left; lra).
    rewrite HM, Z.even_add, HN in HM'. done.
Qed.

Lemma round_half_even_opp q : round_half_even (- q) = (- round_half_even q)%Z.
Proof.
  destruct (round_half_even_spec q) as [[Hl Hu] He].
  apply round_half_even_unique; rewrite inject_Z_opp.
  - lra.
  - rewrite Z.even_opp. intros [H|H]; apply He; [right|left]; lra.
Qed.

Section RoundingMore.

Import Binary.

Lemma ilog2_mono x y : (0 < x)%Q → (x <= y)%Q → (ilog2 x ≤ ilog2 y)%Z.
Proof.
  intros Hx Hxy.
  destruct (ilog2_spec x Hx) as [Hxl _].
  destruct (ilog2_spec y) as [_ Hyu]; [lra|].
  assert (ilog2 x < ilog2 y + 1)%Z by (apply pow2_lt_inv; lra). lia.
Qed.

Lemma Qabs_opp_eq x : Qabs (- x) = Qabs x.
Proof. destruct x as [a b]. unfold Qabs, Qopp. simpl. by rewrite Z.abs_opp. Qed.

Lemma Qabs_pos_eq x : (0 <= x)%Q → Qabs x = x.
Proof.
  destruct x as [a b]. unfold Qle, Qabs. simpl. intros Ha. f_equal. lia.
Qed.

Context (f : format) (Hprec : (1 ≤ prec f)%Z).

Lemma ulp_exp_opp x : ulp_exp f (- x) = ulp_exp f x.
Proof. unfold ulp_exp. by rewrite Qabs_opp_eq. Qed.

Lemma rnd_opp x : (rnd f (- x) == - rnd f x)%Q.
Proof.
  rewrite !rnd_unfold, ulp_exp_opp.
  set (P := pow2 (ulp_exp f x)). pose proof (pow2_pos (ulp_exp f x)) as HP. fold P in HP.
  assert (- x / P == - (x / P))%Q as -> by (field; lra).
  rewrite round_half_even_opp, inject_Z_opp. ring.
Qed.

Lemma rnd_nonpos x : (x <= 0)%Q → (rnd f x <= 0)%Q.
Proof.
  intros Hx. pose proof (rnd_nonneg f (- x) ltac:(lra)) as H.
  rewrite rnd_opp in H. lra.
Qed.

Lemma rnd_mono_pos x y : (0 < x)%Q → (x <= y)%Q → (rnd f x <= rnd f y)%Q.
Proof.
  intros Hx Hxy. assert (0 < y)%Q as Hy by lra.
  pose proof (ilog2_mono x y Hx Hxy) as Hlog.
  destruct (ilog2_spec x Hx) as [Hxl Hxu].
  destruct (ilog2_spec y Hy) as [Hyl Hyu].
  destruct (decide (ulp_exp f x = ulp_exp f y)) as [He|Hne].
  - rewrite !rnd_unfold, He.
    set (P := pow2 (ulp_exp f y)). pose proof (pow2_pos (ulp_exp f y)) as HP. fold P in HP.
    apply Qmult_le_compat_r; [|lra]. rewrite <-Zle_Qle.
    apply round_half_even_mono. apply Qle_shift_div_l; [done|].
    assert (x / P * P == x)%Q as -> by (field; lra). done.
  - assert (ulp_exp f x = Z.max (emin f) (ilog2 x - (prec f - 1))) as Hex.
    { unfold ulp_exp. rewrite Qabs_pos_eq; [done|lra]. }
    assert (ulp_exp f y = Z.max (emin f) (ilog2 y - (prec f - 1))) as Hey.
    { unfold ulp_exp. rewrite Qabs_pos_eq; [done|lra]. }
    set (kx := ilog2 x) in *. set (ky := ilog2 y) in *.
    assert (kx < ky)%Z as Hk by lia.
    assert (ulp_exp f y = ky - (prec f - 1))%Z as Hey' by lia.
    assert (emin f ≤ ky)%Z as Hemin by lia.
    (* rnd x <= 2^ky <= rnd y *)
    apply Qle_trans with (pow2 ky).
    + apply (rnd_bounds f Hprec x ky Hemin).
      pose proof (pow2_pos ky) as Hpk.
      assert (pow2 (kx + 1) <= pow2 ky)%Q by (apply pow2_le; lia).
      split; lra.
    + rewrite rnd_unfold, Hey'. set (e := (ky - (prec f - 1))%Z).
      pose proof (pow2_pos e) as Hpe.
      assert (pow2 ky == inject_Z (2 ^ (ky - e)) * pow2 e)%Q as HN.
      { rewrite <-pow2_inject by lia. rewrite <-pow2_add.
        by replace (ky - e + e)%Z with ky by lia. }
      rewrite HN. apply Qmult_le_compat_r; [|lra]. rewrite <-Zle_Qle.
      apply round_half_even_ge, Qle_shift_div_l; [done|]. by rewrite <-HN.
Qed.

(** Rounding to nearest keeps the order. *)
Lemma rnd_mono x y : (x <= y)%Q → (rnd f x <= rnd f y)%Q.
Proof.
  intros Hxy.
  destruct (Qlt_le_dec 0 x) as [Hx|Hx]; [by apply rnd_mono_pos|].
  destruct (Qlt_le_dec y 0) as [Hy|Hy].
  - pose proof (rnd_mono_pos (- y) (- x) ltac:(lra) ltac:(lra)) as H.
    rewrite !rnd_opp in H. lra.
  - pose proof (rnd_nonpos x Hx). pose proof (rnd_nonneg f y Hy). lra.
Qed.

End RoundingMore.

(** ** Scores between 0 and 1, formatted *)

Lemma format_2f_nonneg q :
  (0 <= q)%Q → PyFormat.format_2f q = hundredths (round_half_even (q * 100)).
Proof.
  intros Hq. unfold PyFormat.format_2f, hundredths.
  destruct (decide (q < 0)%Q) as [Hneg|_]; [lra|].
  by rewrite (Qabs_pos_eq q Hq).
Qed.

Lemma hundredths_upto_100 c :
  (0 ≤ c ≤ 100)%Z →
  String.length (hundredths c) = 4%nat ∧
  (hundredths c = "1.00" ↔ c = 100%Z) ∧
  (hundredths c = "0.00" ↔ c = 0%Z).
Proof.
  intros Hc.
  assert (forallb (λ k : nat,
            let s := hundredths (Z.of_nat k) in
            (String.length s =? 4)%nat
            && Bool.eqb (String.eqb s "1.00") (k =? 100)%nat
            && Bool.eqb (String.eqb s "0.00") (k =? 0)%nat)
            (seq 0 101) = true) as Hall by (vm_compute; reflexivity).
  rewrite forallb_forall in Hall.
  specialize (Hall (Z.to_nat c)). rewrite Z2Nat.id in Hall by lia.
  assert (In (Z.to_nat c) (seq 0 101)) as Hin by (apply in_seq; lia).
  apply Hall in Hin. cbv zeta in Hin.
  apply andb_true_iff in Hin as [Hin H0]. apply andb_true_iff in Hin as [Hlen H1].
  apply Nat.eqb_eq in Hlen. apply Bool.eqb_prop in H1, H0.
  split_and!; [done| |].
  - rewrite <-String.eqb_eq, H1, Nat.eqb_eq. lia.
  - rewrite <-String.eqb_eq, H0, Nat.eqb_eq. lia.
Qed.

Lemma round_half_even_top x :
  (0 <= x <= 100)%Q → round_half_even x = 100%Z ↔ ((199 # 2) <= x)%Q.
Proof.
  intros [Hl Hu]. split.
  - intros H. destruct (round_half_even_spec x) as [[Hl' _] _]. rewrite H in Hl'.
    change (inject_Z 100) with 100%Q in Hl'. lra.
  - intros H. apply round_half_even_unique; change (inject_Z 100) with 100%Q; [lra|].
    by intros _.
Qed.

Lemma round_half_even_bottom x :
  (0 <= x <= 100)%Q → round_half_even x = 0%Z ↔ (x <= 1 # 2)%Q.
Proof.
  intros [Hl Hu]. split.
  - intros H. destruct (round_half_even_spec x) as [[_ Hu'] _]. rewrite H in Hu'.
    change (inject_Z 0) with 0%Q in Hu'. lra.
  - intros H. apply round_half_even_unique; change (inject_Z 0) with 0%Q; [lra|].
    by intros _.
Qed.

(** ** The index at the head of a line *)

Lemma pretty_N_go_digits x : ∀ s,
  PyStr.all_chars digitb s = true → PyStr.all_chars digitb (pretty_N_go x s) = true.
Proof.
  induction (N.lt_wf_0 x) as [x _ IH]; intros s Hs.
  assert (x = 0 ∨ 0 < x)%N as [->|Hx] by lia; [by rewrite pretty_N_go_0|].
  rewrite pretty_N_go_step by done. apply IH; [by apply N.div_lt|].
  simpl. rewrite Hs, andb_true_r.
  unfold pretty_N_char. by repeat case_match.
Qed.

Lemma pretty_nat_digits (k : nat) : PyStr.all_chars digitb (pretty k) = true.
Proof.
  unfold pretty, pretty_nat, pretty, pretty_N.
  destruct (decide _); [done|]. by apply pretty_N_go_digits.
Qed.

(** Digits in front of a colon are determined by the whole string. *)
Lemma digits_before_colon d1 : ∀ d2 r1 r2,
  PyStr.all_chars digitb d1 = true → PyStr.all_chars digitb d2 = true →
  d1 +:+ String ":" r1 = d2 +:+ String ":" r2 → d1 = d2.
Proof.
  induction d1 as [|c1 d1 IH]; intros [|c2 d2] r1 r2 H1 H2 Heq; [done|..].
  - injection Heq as <- _. done.
  - injection Heq as -> _. done.
  - injection Heq as <- Heq. simpl in H1, H2.
    apply andb_true_iff in H1 as [_ H1]. apply andb_true_iff in H2 as [_ H2].
    f_equal. by eapply IH.
Qed.

Lemma format_line_index idx1 idx2 mid1 mid2 name1 name2 score1 score2 :
  PyFormat.format_line idx1 mid1 name1 score1
  = PyFormat.format_line idx2 mid2 name2 score2 →
  idx1 = idx2.
Proof.
  unfold PyFormat.format_line. intros Heq.
  apply (inj pretty). 
  eapply (digits_before_colon _ _ _ _ (pretty_nat_digits idx1) (pretty_nat_digits idx2)).
  exact Heq.
Qed.

Lemma NoDup_omap {A B} (f : A → option B) (l : list A) :
  NoDup l →
  (∀ x y z, x ∈ l → y ∈ l → f x = Some z → f y = Some z → x = y) →
  NoDup (omap f l).
Proof.
  induction 1 as [|x l Hx Hl IH]; intros Hinj; simpl; [constructor|].
  assert (NoDup (omap f l)) as Hrest.
  { apply IH. intros a b z Ha Hb. apply Hinj; by apply list_elem_of_further. }
  destruct (f x) as [z|] eqn:Hfx; [|done]. constructor; [|done].
  intros (y & Hy & Hfy)%list_elem_of_omap.
  assert (x = y) as <-; [|done].
  eapply Hinj; [apply list_elem_of_here|by apply list_elem_of_further|done..].
Qed.

(** ** The 256 pixel values *)

Lemma normalize_pixel_step (k : nat) :
  (k < 255)%nat →
  (normalize (inject_Z (Z.of_nat k)) < normalize (inject_Z (Z.of_nat (S k))))%Q.
Proof.
  intros Hk.
  assert (forallb (λ k : nat,
            bool_decide (normalize (inject_Z (Z.of_nat k))
                         < normalize (inject_Z (Z.of_nat (S k))))%Q)
            (seq 0 255) = true) as Hall by (vm_compute; reflexivity).
  rewrite forallb_forall in Hall.
  assert (In k (seq 0 255)) as Hin by (apply in_seq; lia).
  apply Hall in Hin. by apply bool_decide_eq_true in Hin.
Qed.

Lemma normalize_pixel_lt (d a : nat) :
  (a + S d ≤ 255)%nat →
  (normalize (inject_Z (Z.of_nat a)) < normalize (inject_Z (Z.of_nat (a + S d))))%Q.
Proof.
  induction d as [|d IH]; intros Hle.
  - replace (a + 1)%nat with (S a) by lia. apply normalize_pixel_step. lia.
  - eapply Qlt_trans; [apply IH; lia|].
    replace (a + S (S d))%nat with (S (a + S d)) by lia.
    apply normalize_pixel_step. lia.
Qed.

(** ** Ties in [argsort] *)

Section Ties.

Context (s1 s2 : Argsort).

Implicit Types (scores : list Q) (n : Z).

(** Two ascending orders of the same vector show the same scores,
    position by position: if not, the indices up to that position in one
    order would all have to sit below it in the other. *)
Lemma argsort_scores_le scores p a b x y :
  @argsort s1 scores !! p = Some a → @argsort s2 scores !! p = Some b →
  scores !! a = Some x → scores !! b = Some y → (y <= x)%Q.
Proof.
  intros Ha Hb Hx Hy.
  destruct (Qlt_le_dec x y) as [Hlt|]; [exfalso|done].
  assert (take (S p) (@argsort s1 scores) ⊆+ take p (@argsort s2 scores)) as Hsub.
  { apply NoDup_submseteq.
    - pose proof (@argsort_NoDup s1 scores) as Hnd.
      rewrite <-(take_drop (S p) (@argsort s1 scores)) in Hnd.
      by apply NoDup_app in Hnd as (Hnd & _).
    - intros c Hc. apply list_elem_of_lookup_1 in Hc as (q & Hq).
      apply lookup_take_Some in Hq as [Hq Hqp].
      assert (c < length scores)%nat as Hclt.
      { apply (@elem_of_argsort s1). by eapply list_elem_of_lookup_2. }
      destruct (lookup_lt_is_Some_2 scores c Hclt) as [z Hz].
      assert (z <= x)%Q as Hzx.
      { destruct (decide (q = p)) as [->|Hne].
        - rewrite Ha in Hq. injection Hq as <-. rewrite Hx in Hz. injection Hz as <-.
          apply Qle_refl.
        - eapply (@argsort_sorted s1 scores q p); [lia|done..]. }
      apply (@elem_of_argsort s2), list_elem_of_lookup_1 in Hclt as (r & Hr).
      destruct (decide (r < p)%nat) as [Hrp|Hrp].
      + apply list_elem_of_lookup_2 with r. by rewrite lookup_take_lt.
      + exfalso. assert (y <= z)%Q as Hyz.
        { destruct (decide (r = p)) as [->|Hne].
          - rewrite Hb in Hr. injection Hr as <-. rewrite Hy in Hz. injection Hz as <-.
            apply Qle_refl.
          - eapply (@argsort_sorted s2 scores p r); [lia|done..]. }
        lra. }
  apply submseteq_length in Hsub. rewrite !length_take in Hsub.
  apply lookup_lt_Some in Ha. lia.
Qed.

End Ties.

Lemma merge_argsort_rev_perm v : merge_argsort_rev v ≡ₚ seq 0 (length v).
Proof.
  unfold merge_argsort_rev. rewrite merge_sort_Permutation. apply reverse_Permutation.
Qed.

Lemma merge_argsort_rev_sorted v i j a b x y :
  (i < j)%nat → merge_argsort_rev v !! i = Some a → merge_argsort_rev v !! j = Some b →
  v !! a = Some x → v !! b = Some y → (x <= y)%Q.
Proof.
  intros Hij Hi Hj Ha Hb.
  pose proof (StronglySorted_merge_sort (score_le v) (reverse (seq 0 (length v)))) as Hs.
  pose proof (StronglySorted_lookup_lt _ _ _ _ _ _ Hs Hij Hi Hj) as Hab.
  unfold score_le in Hab. by rewrite Ha, Hb in Hab.
Qed.

Definition merge_rev_Argsort : Argsort :=
  {| argsort := merge_argsort_rev;
     argsort_perm := merge_argsort_rev_perm;
     argsort_sorted := merge_argsort_rev_sorted |}.

(** On a tie the two reference sorts name different classes. *)
Example tie_named_differently :
  @top_k merge_Argsort [0.5; 0.25; 0.5]%Q 1 = [0%nat] ∧
  @top_k merge_rev_Argsort [0.5; 0.25; 0.5]%Q 1 = [2%nat].
Proof. split; vm_compute; reflexivity. Qed.

Lemma format_2f_proper x y : (x == y)%Q → PyFormat.format_2f x = PyFormat.format_2f y.
Proof.
  intros Hxy. unfold PyFormat.format_2f.
  assert (round_half_even (Qabs x * 100) = round_half_even (Qabs y * 100)) as ->.
  { apply round_half_even_proper. by rewrite Hxy. }
  destruct (decide (x < 0)%Q) as [Hx|Hx], (decide (y < 0)%Q) as [Hy|Hy];
    [done|exfalso..|done]; lra.
Qed.

(** ** The lines of a file *)




(** X3: each entry of the label map is determined by its line: if the
    line is [t] followed by whitespace only, and [t] does not end in
    whitespace, the entry is [t].  Whitespace inside or in front of [t]
    stays. *)
Theorem labelmap_entry_unique
    (fs : gmap string string) (classes : Z) (labelmap_path dict_path : string)
    (evs : list event) (lm : list string) (d : gmap string string)
    (data : string) (i : nat) (t ws : string) :
  LoadLabelMaps fs classes labelmap_path dict_path = (evs, Returns (lm, d)) →
  fs !! labelmap_path = Some data →
  PyStr.readlines data !! i = Some (t +:+ ws) →
  PyStr.all_chars PyStr.is_space ws = true →
  (∀ c, last_char t = Some c → PyStr.is_space c = false) →
  lm !! i = Some t.
Proof.
  intros Hload Hl Hi Hws Hlast.
  apply LoadLabelMaps_returns_inv in Hload
    as (data' & ddata & Hl' & _ & _ & _ & _ & -> & _).
  rewrite Hl in Hl'. injection Hl' as <-.
  rewrite list_lookup_fmap, Hi. simpl. f_equal. unfold PyStr.rstrip.
  apply rstrip_by_unique; [done|]. intros u c ->. apply Hlast, last_char_app.
Qed.

(** X3, witness: a label map whose first line has blanks on both sides of
    its entry; the blank in front and the one inside stay. *)
Lemma labelmap_entry_unique_witness :
  ∃ lm d,
    LoadLabelMaps Demo2.fs_spaced 2 "data/2016_08/labelmap.txt" "dict.csv"
      = ([], Returns (lm, d)) ∧
    lm !! 0%nat = Some " a b".
Proof.
  eexists _, _. split; [reflexivity|].
  eapply (labelmap_entry_unique Demo2.fs_spaced 2
            "data/2016_08/labelmap.txt" "dict.csv" []
            _ _ Demo2.labelmap_spaced 0 " a b" ("  " +:+ String PyStr.newline "")).
  - reflexivity.
  - reflexivity.
  - reflexivity.
  - reflexivity.
  - intros c [= <-]. reflexivity.
Defined.

(** ** The dictionary *)

(** X4: one turn of the dict loop succeeds exactly on a line with a
    comma, and cuts it at the first one: the key is what stands before
    the first comma, the name everything after it, further commas
    included, both stripped of blanks, double quotes and LF at their
    ends.  It logs and prints nothing. *)
Theorem dict_step_cuts_at_first_comma
    (label_dict label_dict' : gmap string string) (line : string) (evs : list event) :
  dict_step label_dict line = (evs, Returns label_dict') ↔
  evs = [] ∧
  ∃ w0 w1,
    line = w0 +:+ String PyStr.comma w1 ∧
    PyStr.contains PyStr.comma w0 = false ∧
    label_dict' = <[PyStr.strip_by PyStr.in_dict_strip_set w0 :=
                      PyStr.strip_by PyStr.in_dict_strip_set w1]> label_dict.
Proof.
  split.
  - intros Hstep.
    apply dict_step_returns_inv in Hstep as (k & v & Hw & -> & ->).
    split; [done|].
    apply dict_words_two in Hw as (w0 & w1 & -> & Hw0 & -> & ->).
    by exists w0, w1.
  - intros (-> & w0 & w1 & -> & Hw0 & ->).
    apply dict_step_words. unfold dict_words.
    by rewrite (proj2 (split_comma_1_iff _ w0 w1) (conj eq_refl Hw0)).
Qed.

(** X5: when a key stands on several lines of dict.csv, the last of
    them gives the name: [label_dict] maps [key] to [value] exactly when
    some line has the words [key] and [value] and no later line has the
    key [key]; and it has no entry for [key] exactly when no line has
    that key. *)
Theorem label_dict_last_line_wins
    (fs : gmap string string) (classes : Z) (labelmap_path dict_path : string)
    (evs : list event) (lm : list string) (label_dict : gmap string string)
    (key : string) :
  LoadLabelMaps fs classes labelmap_path dict_path = (evs, Returns (lm, label_dict)) →
  ∃ ddata,
    fs !! dict_path = Some ddata ∧
    (∀ value,
       label_dict !! key = Some value ↔
       ∃ before line after,
         PyStr.readlines ddata = before ++ line :: after ∧
         dict_words line = [key; value] ∧
         Forall (other_key key) after) ∧
    (label_dict !! key = None ↔ Forall (other_key key) (PyStr.readlines ddata)).
Proof.
  intros Hload.
  apply LoadLabelMaps_returns_inv in Hload
    as (data & ddata & _ & _ & Hd & _ & Hloop & _ & _).
  exists ddata. split_and!; [done| |].
  - intros value. rewrite (dict_loop_lookup_Some _ _ _ _ key value Hloop).
    rewrite lookup_empty. split; [by intros [?|[_ ?]]|by left].
  - rewrite (dict_loop_lookup_None _ _ _ _ key Hloop).
    rewrite lookup_empty. split; [by intros [? _]|by split].
Qed.

(** X5, witness: a dict.csv that names [/m/01yrx] twice; the second name,
    with its comma and inner quotes, is the one kept. *)
Lemma label_dict_last_line_wins_witness :
  ∃ lm label_dict,
    LoadLabelMaps Demo3.fs_twice 3 "data/2016_08/labelmap.txt" "dict.csv"
      = ([], Returns (lm, label_dict)) ∧
    label_dict !! "/m/01yrx"
      = Some ("house cat, " +:+ Demo.quoted "Felis" +:+ " catus") ∧
    ∃ ddata,
      Demo3.fs_twice !! "dict.csv" = Some ddata ∧
      (∀ value,
         label_dict !! "/m/01yrx" = Some value ↔
         ∃ before line after,
           PyStr.readlines ddata = before ++ line :: after ∧
           dict_words line = ["/m/01yrx"; value] ∧
           Forall (other_key "/m/01yrx") after) ∧
      (label_dict !! "/m/01yrx" = None ↔
       Forall (other_key "/m/01yrx") (PyStr.readlines ddata)).
Proof.
  eexists _, _. split; [reflexivity|]. split; [reflexivity|].
  eapply (label_dict_last_line_wins Demo3.fs_twice 3
           "data/2016_08/labelmap.txt" "dict.csv" [] _ _ "/m/01yrx").
  reflexivity.
Defined.

(** X6: every entry of [label_dict] comes from a line of dict.csv of the
    form [l0 key r0 , l1 name r1], where [l0 key r0] has no comma and
    [l0], [r0], [l1], [r1] consist of blanks, double quotes and LF; the
    key and the name neither start nor end with such a character, and
    the key has no comma. *)
Theorem label_dict_entries_stripped
    (fs : gmap string string) (classes : Z) (labelmap_path dict_path : string)
    (evs : list event) (lm : list string) (label_dict : gmap string string)
    (key name : string) :
  LoadLabelMaps fs classes labelmap_path dict_path = (evs, Returns (lm, label_dict)) →
  label_dict !! key = Some name →
  ∃ ddata l0 r0 l1 r1,
    fs !! dict_path = Some ddata ∧
    (l0 +:+ key +:+ r0) +:+ String PyStr.comma (l1 +:+ name +:+ r1)
      ∈ PyStr.readlines ddata ∧
    PyStr.contains PyStr.comma (l0 +:+ key +:+ r0) = false ∧
    Forall (λ s, PyStr.all_chars PyStr.in_dict_strip_set s = true) [l0; r0; l1; r1] ∧
    stripped PyStr.in_dict_strip_set key ∧
    stripped PyStr.in_dict_strip_set name ∧
    PyStr.contains PyStr.comma key = false.
Proof.
  intros Hload Hk.
  apply LoadLabelMaps_returns_inv in Hload
    as (data & ddata & _ & _ & Hd & _ & Hloop & _ & _).
  apply (dict_loop_lookup_Some _ _ _ _ key name Hloop) in Hk
    as [(before & line & after & Hlines & Hw & _)|[_ Hk]];
    [|by rewrite lookup_empty in Hk].
  apply dict_words_two in Hw as (w0 & w1 & -> & Hw0 & -> & ->).
  destruct (strip_by_spec PyStr.in_dict_strip_set w0) as (l0 & r0 & H0 & Hl0 & Hr0 & Hs0).
  destruct (strip_by_spec PyStr.in_dict_strip_set w1) as (l1 & r1 & H1 & Hl1 & Hr1 & Hs1).
  exists ddata, l0, r0, l1, r1. split_and!; try done.
  - rewrite <-H0, <-H1, Hlines. apply elem_of_app. right. apply list_elem_of_here.
  - by rewrite <-H0.
  - by repeat constructor.
  - by apply contains_strip_by.
Qed.

(** X6, witness: the same dict.csv; the key and the name of its last line.
    *)
Lemma label_dict_entries_stripped_witness :
  ∃ lm label_dict,
    LoadLabelMaps Demo3.fs_twice 3 "data/2016_08/labelmap.txt" "dict.csv"
      = ([], Returns (lm, label_dict)) ∧
    stripped PyStr.in_dict_strip_set "/m/01yrx" ∧
    stripped PyStr.in_dict_strip_set
      ("house cat, " +:+ Demo.quoted "Felis" +:+ " catus").
Proof.
  eexists _, _. split; [reflexivity|].
  destruct (label_dict_entries_stripped Demo3.fs_twice 3
              "data/2016_08/labelmap.txt" "dict.csv" [] _ _
              "/m/01yrx" ("house cat, " +:+ Demo.quoted "Felis" +:+ " catus")
              eq_refl eq_refl)
    as (_ & _ & _ & _ & _ & _ & _ & _ & _ & Hkey & Hname & _).
  by split.
Defined.

(** ** The top-N count *)

(** X7: with a negative top-N count [n], the slice [[-n:]] starts at
    position [|n|]: the loop leaves out the [|n|] lowest-scoring classes
    and prints one line for each of the others, highest score first; it
    prints nothing once [|n|] reaches the number of classes. *)
Theorem report_negative_n
    (fs : gmap string string) (FLAGS : Flags) {sorter : Argsort}
    (scores : list Q) (lm : list string) (d : gmap string string) :
  (n FLAGS < 0)%Z →
  Z.of_nat (length scores) = num_classes FLAGS →
  LoadLabelMaps fs (num_classes FLAGS) (labelmap FLAGS) (dict FLAGS)
    = ([], Returns (lm, d)) →
  top_k scores (n FLAGS) = reverse (drop (Z.to_nat (- n FLAGS)) (argsort scores)) ∧
  Forall2 (λ idx line, line_of lm d scores idx = Some line)
    (top_k scores (n FLAGS)) (printed (events (report fs FLAGS scores))) ∧
  length (printed (events (report fs FLAGS scores)))
    = (length scores - Z.to_nat (- n FLAGS))%nat.
Proof.
  intros Hn Hlen Hload.
  destruct (report_prints_all fs FLAGS scores lm d Hload Hlen) as (Hall & Hrun & Hcount).
  split_and!.
  - by apply top_k_neg.
  - rewrite Hrun. simpl. rewrite printed_fmap_EvPrint.
    apply omap_Forall2. rewrite <-Hall. apply reported_lines.
  - rewrite Hcount. by apply top_k_neg_length.
Qed.

(** X7, witness: the demo run with [--n -1] prints two of the three
    classes. *)
Lemma report_negative_n_witness :
  ∃ lm d,
    LoadLabelMaps Demo.fs_full 3 "data/2016_08/labelmap.txt" "dict.csv"
      = ([], Returns (lm, d)) ∧
    printed (events (report Demo.fs_full (Demo.flags 3 (-1)) Demo.scores3))
      = ["1: /m/0jbk - animal (score = 0.94)";
         "2: /m/04rky - unknown (score = 0.92)"] ∧
    length (printed (events (report Demo.fs_full (Demo.flags 3 (-1)) Demo.scores3)))
      = (length Demo.scores3 - Z.to_nat (- -1))%nat.
Proof.
  eexists _, _. split; [reflexivity|]. split; [reflexivity|].
  eapply (report_negative_n Demo.fs_full (Demo.flags 3 (-1)) Demo.scores3).
  - simpl. lia.
  - reflexivity.
  - reflexivity.
Defined.

(** X8: raising the top-N count only adds lines at the end: for counts
    [1 ≤ n1 ≤ n2], what the reporting stage prints with [n1] is a prefix
    of what it prints with [n2], all else being equal. *)
Theorem report_larger_n_appends
    (fs : gmap string string) (FLAGS : Flags) {sorter : Argsort}
    (scores : list Q) (n1 n2 : Z) :
  (1 ≤ n1 ≤ n2)%Z →
  printed (events (report fs (with_n FLAGS n1) scores))
    `prefix_of` printed (events (report fs (with_n FLAGS n2) scores)).
Proof.
  intros Hn.
  destruct (LoadLabelMaps_cases fs (num_classes FLAGS) (labelmap FLAGS) (dict FLAGS))
    as [H|[[msg H]|[H|[[lm d] H]]]].
  - by rewrite (report_halts fs (with_n FLAGS n1) scores _ _ H),
               (report_halts fs (with_n FLAGS n2) scores _ _ H).
  - by rewrite (report_halts fs (with_n FLAGS n1) scores _ _ H),
               (report_halts fs (with_n FLAGS n2) scores _ _ H).
  - by rewrite (report_halts fs (with_n FLAGS n1) scores _ _ H),
               (report_halts fs (with_n FLAGS n2) scores _ _ H).
  - rewrite (report_returns fs (with_n FLAGS n1) scores lm d H),
            (report_returns fs (with_n FLAGS n2) scores lm d H).
    rewrite !for_each_report_events, !printed_fmap_EvPrint. simpl.
    by apply omap_prefix, reported_prefix_mono, top_k_prefix_mono.
Qed.

(** X8, witness: the demo run with one and with two predictions. *)
Lemma report_larger_n_appends_witness :
  printed (events (report Demo.fs_full (with_n (Demo.flags 3 0) 1) Demo.scores3))
    = ["1: /m/0jbk - animal (score = 0.94)"] ∧
  printed (events (report Demo.fs_full (with_n (Demo.flags 3 0) 2) Demo.scores3))
    = ["1: /m/0jbk - animal (score = 0.94)";
       "2: /m/04rky - unknown (score = 0.92)"] ∧
  printed (events (report Demo.fs_full (with_n (Demo.flags 3 0) 1) Demo.scores3))
    `prefix_of`
    printed (events (report Demo.fs_full (with_n (Demo.flags 3 0) 2) Demo.scores3)).
Proof.
  split; [reflexivity|]. split; [reflexivity|].
  apply (report_larger_n_appends Demo.fs_full (Demo.flags 3 0) Demo.scores3 1 2).
  lia.
Defined.






(** ** Runs of [main] *)

(** X12: a run that writes a fatal record prints no prediction and does
    not return: whatever is logged, the run ends in an exception or in
    [sys.exit]. *)
Theorem fatal_record_stops_run
    (lib : Library) (fs : gmap string string) (FLAGS : Flags) {sorter : Argsort} :
  logged (events (main lib fs FLAGS)) ≠ [] →
  halted (main lib fs FLAGS) ∧ printed (events (main lib fs FLAGS)) = [].
Proof.
  intros Hlog. case_infer Hi.
  1-5: rewrite (main_infer_halts _ _ _ _ _ Hi); split; [by eexists|done].
  rewrite (main_after_infer _ _ _ _ Hi) in Hlog |- *.
  destruct (report_cases fs FLAGS (net (preprocessed lib FLAGS pixels)))
    as [(evs & h & _ & -> & Hpr & _)|(lm & d & _ & Hrun)].
  - split; [by eexists|]. simpl. apply Hpr.
  - rewrite Hrun in Hlog. simpl in Hlog. by rewrite logged_fmap_EvPrint in Hlog.
Qed.

(** X12, witness: the demo run with four classes for three label-map
    lines. *)
Lemma fatal_record_stops_run_witness :
  logged (events (main (Demo.lib Demo.scores3) Demo.fs_full (Demo.flags 4 2)))
    = ["Label map loaded from data/2016_08/labelmap.txt contains 3 lines while the number of classes is 4"] ∧
  halted (main (Demo.lib Demo.scores3) Demo.fs_full (Demo.flags 4 2)) ∧
  printed (events (main (Demo.lib Demo.scores3) Demo.fs_full (Demo.flags 4 2))) = [].
Proof.
  split; [reflexivity|].
  apply (fatal_record_stops_run (Demo.lib Demo.scores3) Demo.fs_full (Demo.flags 4 2)).
  vm_compute. discriminate.
Defined.

(** X13: the log of a run, in full.  A missing checkpoint and a missing
    image each leave their record, in this order; the label-map record
    is written only when the checkpoint and the image were read, restored
    and decoded, and the label map is there with a wrong number of
    lines.  Nothing else is ever logged. *)
Theorem main_log
    (lib : Library) (fs : gmap string string) (FLAGS : Flags) {sorter : Argsort} :
  logged (events (main lib fs FLAGS)) =
  match fs !! checkpoint FLAGS, fs !! image_path FLAGS with
  | None, None =>
      [checkpoint_message FLAGS; "Input image does not exist " +:+ image_path FLAGS]
  | None, Some _ => [checkpoint_message FLAGS]
  | Some _, None => ["Input image does not exist " +:+ image_path FLAGS]
  | Some ckpt, Some jpeg =>
      match restore_inception_v3 lib ckpt (num_classes FLAGS),
            decode_jpeg lib jpeg, fs !! labelmap FLAGS with
      | Some _, Some _, Some data =>
          if decide (Z.of_nat (length (PyStr.readlines data)) ≠ num_classes FLAGS)
          then [label_map_message (labelmap FLAGS)
                  (length (PyStr.readlines data)) (num_classes FLAGS)]
          else []
      | _, _, _ => []
      end
  end.
Proof.
  case_infer Hi; rewrite Hckpt, Himg.
  1-3: by rewrite (main_infer_halts _ _ _ _ _ Hi).
  1-2: by rewrite (main_infer_halts _ _ _ _ _ Hi), Hrest; try rewrite Hdec.
  rewrite (main_after_infer _ _ _ _ Hi), Hrest, Hdec.
  change (logged (events (?a :: ?b, ?c))) with (logged b).
  destruct (fs !! labelmap FLAGS) as [data|] eqn:Hl.
  - destruct (decide _) as [Hne|Heq].
    + by rewrite (report_halts _ _ _ _ _ (LoadLabelMaps_mismatch _ _ _ _ _ Hl Hne)).
    + apply dec_stable in Heq.
      destruct (report_cases fs FLAGS (net (preprocessed lib FLAGS pixels)))
        as [(evs & h & Hload & -> & _)|(lm & d & _ & ->)].
      * pose proof (LoadLabelMaps_equal_logs_nothing _ _ _ (dict FLAGS) _ Hl Heq) as Hlog.
        by rewrite Hload in Hlog.
      * apply logged_fmap_EvPrint.
  - by rewrite (report_halts _ _ _ _ _ (LoadLabelMaps_no_labelmap _ _ _ _ Hl)).
Qed.

(** X14: the only exit status the script sets itself is 1, and a run
    ends in [sys.exit] only after inference, on a label map whose number
    of lines differs from [num_classes]; the events of such a run are
    the call of [sess.run] and the fatal record. *)
Theorem main_exit_status
    (lib : Library) (fs : gmap string string) (FLAGS : Flags) {sorter : Argsort}
    (code : Z) :
  result (main lib fs FLAGS) = Halts (SysExit code) →
  code = 1%Z ∧
  ∃ data,
    fs !! labelmap FLAGS = Some data ∧
    Z.of_nat (length (PyStr.readlines data)) ≠ num_classes FLAGS ∧
    events (main lib fs FLAGS)
    = [EvSessRun;
       EvLogFatal (label_map_message (labelmap FLAGS)
                     (length (PyStr.readlines data)) (num_classes FLAGS))].
Proof.
  case_infer Hi.
  1-5: by rewrite (main_infer_halts _ _ _ _ _ Hi).
  rewrite (main_after_infer _ _ _ _ Hi).
  destruct (report_cases fs FLAGS (net (preprocessed lib FLAGS pixels)))
    as [(evs & h & Hload & -> & _)|(lm & d & _ & ->)].
  - simpl. intros [= ->].
    apply LoadLabelMaps_halts_inv in Hload
      as [(? & _)|[(Hh & data & Hl & Hne & ->)|(? & _)]]; [done| |done].
    injection Hh as ->. split; [done|]. by exists data.
  - simpl. by destruct (decide _).
Qed.

(** X14, witness: the demo run with four classes for three label-map
    lines. *)
Lemma main_exit_status_witness :
  result (main (Demo.lib Demo.scores3) Demo.fs_full (Demo.flags 4 2))
    = Halts (SysExit 1) ∧
  ∃ data,
    Demo.fs_full !! "data/2016_08/labelmap.txt" = Some data ∧
    Z.of_nat (length (PyStr.readlines data)) ≠ 4%Z ∧
    events (main (Demo.lib Demo.scores3) Demo.fs_full (Demo.flags 4 2))
    = [EvSessRun;
       EvLogFatal (label_map_message "data/2016_08/labelmap.txt"
                     (length (PyStr.readlines data)) 4)].
Proof.
  split; [reflexivity|].
  apply (main_exit_status (Demo.lib Demo.scores3) Demo.fs_full (Demo.flags 4 2) 1).
  reflexivity.
Defined.



(** X16: a run that returns has logged nothing; its events are the call
    of [sess.run] followed by one printed line for each index of
    [top_k], in order, and nothing else. *)
Theorem main_returns_inv
    (lib : Library) (fs : gmap string string) (FLAGS : Flags) {sorter : Argsort} :
  result (main lib fs FLAGS) = Returns () →
  ∃ scores lm d,
    infer lib fs FLAGS = ([EvSessRun], Returns scores) ∧
    LoadLabelMaps fs (num_classes FLAGS) (labelmap FLAGS) (dict FLAGS)
      = ([], Returns (lm, d)) ∧
    Forall (λ idx, is_Some (line_of lm d scores idx)) (top_k scores (n FLAGS)) ∧
    events (main lib fs FLAGS)
      = EvSessRun :: (EvPrint <$> omap (line_of lm d scores) (top_k scores (n FLAGS))) ∧
    length (printed (events (main lib fs FLAGS))) = length (top_k scores (n FLAGS)) ∧
    logged (events (main lib fs FLAGS)) = [].
Proof.
  case_infer Hi.
  1-5: by rewrite (main_infer_halts _ _ _ _ _ Hi).
  rewrite (main_after_infer _ _ _ _ Hi).
  destruct (report_cases fs FLAGS (net (preprocessed lib FLAGS pixels)))
    as [(evs & h & Hload & -> & _)|(lm & d & Hload & ->)]; [done|].
  simpl. destruct (decide _) as [Hall|]; [|done]. intros _.
  exists (net (preprocessed lib FLAGS pixels)), lm, d. rewrite Hall.
  assert (Forall (λ idx, is_Some (line_of lm d (net (preprocessed lib FLAGS pixels)) idx))
            (top_k (net (preprocessed lib FLAGS pixels)) (n FLAGS))) as Hsome.
  { by apply reported_eq_iff. }
  split_and!; [done..| |].
  - rewrite printed_fmap_EvPrint. symmetry.
    eapply Forall2_length, omap_Forall2, Hsome.
  - apply logged_fmap_EvPrint.
Qed.

(** X16, witness: the demo run. *)
Lemma main_returns_inv_witness :
  result (main (Demo.lib Demo.scores3) Demo.fs_full (Demo.flags 3 2)) = Returns () ∧
  ∃ scores lm d,
    infer (Demo.lib Demo.scores3) Demo.fs_full (Demo.flags 3 2)
      = ([EvSessRun], Returns scores) ∧
    LoadLabelMaps Demo.fs_full 3 "data/2016_08/labelmap.txt" "dict.csv"
      = ([], Returns (lm, d)) ∧
    Forall (λ idx, is_Some (line_of lm d scores idx)) (top_k scores 2) ∧
    events (main (Demo.lib Demo.scores3) Demo.fs_full (Demo.flags 3 2))
      = EvSessRun :: (EvPrint <$> omap (line_of lm d scores) (top_k scores 2)) ∧
    length (printed (events (main (Demo.lib Demo.scores3) Demo.fs_full (Demo.flags 3 2))))
      = length (top_k scores 2) ∧
    logged (events (main (Demo.lib Demo.scores3) Demo.fs_full (Demo.flags 3 2))) = [].
Proof.
  split; [reflexivity|].
  apply (main_returns_inv (Demo.lib Demo.scores3) Demo.fs_full (Demo.flags 3 2)).
  reflexivity.
Defined.

(** X17: [sess.run] is called exactly when the checkpoint file and the
    image file are there and the checkpoint restores; whether the image
    decodes, and what the label files hold, plays no part.  It is called
    at most once, before anything is printed or exited from. *)
Theorem ran_inference_iff
    (lib : Library) (fs : gmap string string) (FLAGS : Flags) {sorter : Argsort} :
  (ran_inference (events (main lib fs FLAGS)) ↔
   ∃ ckpt jpeg net,
     fs !! checkpoint FLAGS = Some ckpt ∧ fs !! image_path FLAGS = Some jpeg ∧
     restore_inception_v3 lib ckpt (num_classes FLAGS) = Some net) ∧
  (ran_inference (events (main lib fs FLAGS)) →
   ∃ rest, events (main lib fs FLAGS) = EvSessRun :: rest ∧ EvSessRun ∉ rest).
Proof.
  unfold ran_inference. case_infer Hi.
  1-5: rewrite (main_infer_halts _ _ _ _ _ Hi); simpl.
  6: rewrite (main_after_infer _ _ _ _ Hi); simpl.
  1-4: split; [split|]; rewrite ?elem_of_cons, elem_of_nil;
    [intuition discriminate|intros (? & ? & ? & ? & ? & ?); congruence
    |intuition discriminate].
  - split; [split|].
    + intros _. by exists ckpt, jpeg, net.
    + intros _. apply list_elem_of_here.
    + intros _. exists []. split; [done|]. apply not_elem_of_nil.
  - split; [split|].
    + intros _. by exists ckpt, jpeg, net.
    + intros _. apply list_elem_of_here.
    + intros _. eexists. split; [done|].
      destruct (report_cases fs FLAGS (net (preprocessed lib FLAGS pixels)))
        as [(evs & h & _ & -> & _ & Hno)|(lm & d & _ & ->)]; [done|].
      apply not_elem_of_fmap_EvPrint.
Qed.

(** X18: a run depends on the file system only through the four files
    the flags name: two file systems that agree on the checkpoint, the
    image, the label map and dict.csv give the same events and the same
    end. *)
Theorem main_reads_four_files
    (lib : Library) (fs1 fs2 : gmap string string) (FLAGS : Flags) {sorter : Argsort} :
  fs1 !! checkpoint FLAGS = fs2 !! checkpoint FLAGS →
  fs1 !! image_path FLAGS = fs2 !! image_path FLAGS →
  fs1 !! labelmap FLAGS = fs2 !! labelmap FLAGS →
  fs1 !! dict FLAGS = fs2 !! dict FLAGS →
  main lib fs1 FLAGS = main lib fs2 FLAGS.
Proof.
  intros Hc Hi Hl Hd.
  unfold main, infer, report, LoadLabelMaps, PreprocessImage, saver_restore,
    GFile_readlines, GFile_read, os_path_exists.
  by rewrite Hc, Hi, Hl, Hd.
Qed.

(** X18, witness: the demo files, with and without a file the flags do not
    name. *)
Lemma main_reads_four_files_witness :
  Demo5.fs_more ≠ Demo.fs_full ∧
  main (Demo.lib Demo.scores3) Demo5.fs_more (Demo.flags 3 2)
  = main (Demo.lib Demo.scores3) Demo.fs_full (Demo.flags 3 2).
Proof.
  split.
  - intros H. apply (f_equal (λ m : gmap string string, m !! "README.md")) in H.
    vm_compute in H. discriminate.
  - apply (main_reads_four_files (Demo.lib Demo.scores3)
             Demo5.fs_more Demo.fs_full (Demo.flags 3 2)); reflexivity.
Defined.

(** ** The normalisation, value by value *)

(** X19: the normalisation of [PreprocessImage], with all its binary32
    roundings, keeps the order of pixel values: a value that is not
    smaller is not mapped to a smaller one, whatever the two values. *)
Theorem normalize_monotone (v w : Q) :
  (v <= w)%Q → (normalize v <= normalize w)%Q.
Proof.
  intros Hvw. rewrite !normalize_unfold. unfold Binary.fl32.
  apply rnd_mono; [done|].
  assert (Binary.rnd Binary.binary32 (v * (8421505 # 1073741824))
          <= Binary.rnd Binary.binary32 (w * (8421505 # 1073741824)))%Q as H.
  { apply rnd_mono; [done|]. lra. }
  lra.
Qed.

(** X19, witness: the pixel values 51 and 127.5. *)
Lemma normalize_monotone_witness :
  (51 <= 127.5)%Q ∧ (normalize 51 <= normalize 127.5)%Q.
Proof.
  split; [vm_compute; discriminate|].
  apply (normalize_monotone 51 127.5). vm_compute. discriminate.
Defined.

(** X20: the 256 values a decoded 8-bit pixel can take stay apart:
    their normalised binary32 values are strictly increasing, so no two
    intensities are merged by the two roundings. *)
Theorem normalize_separates_pixel_values (i j : Z) :
  (0 ≤ i)%Z → (i < j)%Z → (j ≤ 255)%Z →
  (normalize (inject_Z i) < normalize (inject_Z j))%Q.
Proof.
  intros Hi Hij Hj.
  pose proof (normalize_pixel_lt (Z.to_nat (j - i) - 1) (Z.to_nat i)) as H.
  replace (Z.to_nat i + S (Z.to_nat (j - i) - 1))%nat with (Z.to_nat j) in H by lia.
  rewrite !Z2Nat.id in H by lia. apply H. lia.
Qed.

(** X20, witness: the pixel values 127 and 128. *)
Lemma normalize_separates_pixel_values_witness :
  (0 ≤ 127)%Z ∧ (127 < 128)%Z ∧ (128 ≤ 255)%Z ∧ (normalize 127 < normalize 128)%Q.
Proof.
  split; [lia|]. split; [lia|]. split; [lia|].
  apply (normalize_separates_pixel_values 127 128); lia.
Defined.

(** ** The printed score and index *)

(** X21: a score between 0 and 1, as the sigmoid gives it, is printed
    with four characters.  It is printed as 1.00 exactly from 0.995 on,
    and as 0.00 exactly up to 0.005, the ties going to the even
    hundredth. *)
Theorem format_2f_probability (score : Q) :
  (0 <= score <= 1)%Q →
  String.length (PyFormat.format_2f score) = 4%nat ∧
  (PyFormat.format_2f score = "1.00" ↔ (199 # 200 <= score)%Q) ∧
  (PyFormat.format_2f score = "0.00" ↔ (score <= 1 # 200)%Q).
Proof.
  intros [Hl Hu]. rewrite format_2f_nonneg by done.
  assert (0 <= score * 100 <= 100)%Q as Hx by lra.
  assert (0 ≤ round_half_even (score * 100) ≤ 100)%Z as Hc.
  { split; [apply round_half_even_nonneg; lra|apply round_half_even_le].
    change (inject_Z 100) with 100%Q. lra. }
  destruct (hundredths_upto_100 _ Hc) as (Hlen & H1 & H0).
  split_and!; [done| |].
  - rewrite H1, (round_half_even_top _ Hx). split; intros; lra.
  - rewrite H0, (round_half_even_bottom _ Hx). split; intros; lra.
Qed.

(** X21, witness: the score 0.9375, a tie between 0.93 and 0.94. *)
Lemma format_2f_probability_witness :
  (0 <= 0.9375 <= 1)%Q ∧
  PyFormat.format_2f 0.9375 = "0.94" ∧
  String.length (PyFormat.format_2f 0.9375) = 4%nat ∧
  (PyFormat.format_2f 0.9375 = "1.00" ↔ (199 # 200 <= 0.9375)%Q) ∧
  (PyFormat.format_2f 0.9375 = "0.00" ↔ (0.9375 <= 1 # 200)%Q).
Proof.
  split; [split; vm_compute; discriminate|]. split; [reflexivity|].
  apply (format_2f_probability 0.9375). split; vm_compute; discriminate.
Defined.

(** X22: a printed line starts with the decimal digits of its index and
    a colon, so a line gives its index back, whatever the mid and the
    name are; and as the selected indices are distinct, no run of [main]
    prints the same line twice. *)
Theorem printed_lines_distinct
    (lib : Library) (fs : gmap string string) (FLAGS : Flags) {sorter : Argsort} :
  NoDup (printed (events (main lib fs FLAGS))) ∧
  ∀ idx1 idx2 mid1 mid2 name1 name2 score1 score2,
    PyFormat.format_line idx1 mid1 name1 score1
    = PyFormat.format_line idx2 mid2 name2 score2 →
    idx1 = idx2.
Proof.
  split; [|apply format_line_index].
  destruct (main_printed lib fs FLAGS) as [[-> _]|(scores & _ & ->)]; [constructor|].
  destruct (report_printed fs FLAGS scores) as [[-> _]|(lm & d & _ & ->)]; [constructor|].
  apply NoDup_omap.
  - destruct (reported_prefix lm d scores (top_k scores (n FLAGS))) as [k Hk].
    pose proof (top_k_NoDup scores (n FLAGS)) as Hnd. rewrite Hk in Hnd.
    by apply NoDup_app in Hnd as (Hnd & _).
  - intros x y z _ _ Hx Hy.
    apply line_of_Some in Hx as (m1 & s1 & _ & _ & ->).
    apply line_of_Some in Hy as (m2 & s2 & _ & _ & Heq).
    by eapply format_line_index.
Qed.

(** ** Ties *)

(** X23: how [argsort] orders equal scores does not show in the scores
    that are printed: for any two sorts that meet the contract of
    [numpy.argsort], the selections have the same length and, position
    by position, indices of equal score, which [{:.2f}] prints alike.
    Only which of several classes of equal score is named can differ. *)
Theorem printed_scores_independent_of_ties :
  (∀ (s1 s2 : Argsort) (scores : list Q) (n : Z),
     Forall2 (λ a b, ∃ x y,
                scores !! a = Some x ∧ scores !! b = Some y ∧ (x == y)%Q ∧
                PyFormat.format_2f x = PyFormat.format_2f y)
       (@top_k s1 scores n) (@top_k s2 scores n)) ∧
  @top_k merge_Argsort [0.5; 0.25; 0.5]%Q 1
    ≠ @top_k merge_rev_Argsort [0.5; 0.25; 0.5]%Q 1.
Proof.
  split; [|vm_compute; discriminate].
  intros s1 s2 scores n.
  apply Forall2_same_length_lookup. split.
  - by rewrite !top_k_length.
  - intros i a b Ha Hb.
    pose proof (top_k_valid _ _ _ (list_elem_of_lookup_2 _ _ _ Ha)) as Halt.
    pose proof (top_k_valid _ _ _ (list_elem_of_lookup_2 _ _ _ Hb)) as Hblt.
    destruct (lookup_lt_is_Some_2 scores a Halt) as [x Hx].
    destruct (lookup_lt_is_Some_2 scores b Hblt) as [y Hy].
    apply top_k_lookup in Ha as [Ha _]. apply top_k_lookup in Hb as [Hb _].
    assert (x == y)%Q as Hxy.
    { apply Qle_antisym.
      - eapply (argsort_scores_le s2 s1); done.
      - eapply (argsort_scores_le s1 s2); done. }
    exists x, y. split_and!; [done..|]. by apply format_2f_proper.
Qed.

(** ** The name on a line, from dict.csv *)

(** X24: the name on a printed line, read off the files: it is the name
    on the last line of dict.csv whose key is the line's mid, and it is
    [unknown] when no line of dict.csv has that key. *)
Theorem display_name_from_last_dict_line
    (lib : Library) (fs : gmap string string) (FLAGS : Flags) {sorter : Argsort}
    (line : string) :
  line ∈ printed (events (main lib fs FLAGS)) →
  ∃ (ddata : string) (idx : nat) (mid name : string) (score : Q),
    fs !! dict FLAGS = Some ddata ∧
    line = PyFormat.format_line idx mid name score ∧
    ((∃ before l after,
        PyStr.readlines ddata = before ++ l :: after ∧
        dict_words l = [mid; name] ∧
        Forall (other_key mid) after) ∨
     (name = "unknown" ∧ Forall (other_key mid) (PyStr.readlines ddata))).
Proof.
  intros Hline.
  apply main_line_inv in Hline
    as (scores & data & ddata & label_dict & idx & raw & score
        & _ & _ & Hd & Hloop & _ & _ & _ & _ & ->).
  exists ddata, idx, (PyStr.rstrip raw).
  destruct (label_dict !! PyStr.rstrip raw) as [name|] eqn:Hname.
  - exists name, score. split_and!; [done..|]. left.
    apply (dict_loop_lookup_Some _ _ _ _ _ _ Hloop) in Hname
      as [Hlast|[_ Hempty]]; [done|by rewrite lookup_empty in Hempty].
  - exists "unknown", score. split_and!; [done..|]. right. split; [done|].
    by apply (dict_loop_lookup_None _ _ _ _ _ Hloop) in Hname as [Hnone _].
Qed.

(** X24, witness: the second line of the demo run, whose mid is on no line
    of dict.csv. *)
Lemma display_name_from_last_dict_line_witness :
  "2: /m/04rky - unknown (score = 0.92)"
    ∈ printed (events (main (Demo.lib Demo.scores3) Demo.fs_full (Demo.flags 3 2))) ∧
  ∃ (ddata : string) (idx : nat) (mid name : string) (score : Q),
    Demo.fs_full !! "dict.csv" = Some ddata ∧
    "2: /m/04rky - unknown (score = 0.92)"
      = PyFormat.format_line idx mid name score ∧
    ((∃ before l after,
        PyStr.readlines ddata = before ++ l :: after ∧
        dict_words l = [mid; name] ∧
        Forall (other_key mid) after) ∨
     (name = "unknown" ∧ Forall (other_key mid) (PyStr.readlines ddata))).
Proof.
  assert ("2: /m/04rky - unknown (score = 0.92)"
            ∈ printed (events (main (Demo.lib Demo.scores3) Demo.fs_full
                                 (Demo.flags 3 2)))) as Hin.
  { vm_compute. apply list_elem_of_further, list_elem_of_here. }
  split; [exact Hin|].
  exact (display_name_from_last_dict_line
           (Demo.lib Demo.scores3) Demo.fs_full (Demo.flags 3 2) _ Hin).
Defined.

(** ** The end of a run, from its inputs *)

